(** * Resume analysis and job matching engine: a shallow embedding

    This development embeds the deterministic text-processing core of the
    resume optimiser (backend/resume_processor.py, backend/job_matcher.py and
    the upload fallback of backend/advanced_main.py) and proves properties
    of it.

    Conventions of the embedding.
    - Python [str] values are [string]s; the model covers ASCII text, on
      which [str.lower], [str.strip], [str.split] and the regular
      expression classes [\d], [\w], [\s] are given below.  Characters
      above 127 are carried along unchanged.
    - Python [float] arithmetic is idealised as exact rational arithmetic
      over [Q]; scores are compared with [==].
    - A Python dict whose iteration order matters is an association list
      in insertion order.
    - A call that may raise is a function into [option]; [None] stands for
      the raised exception. *)

From Stdlib Require Import String Ascii List Bool Arith ZArith QArith Qminmax Lia Lqa.
From Stdlib Require Import Sorted.
Import ListNotations.

Close Scope Q_scope.
Open Scope nat_scope.
Open Scope string_scope.
Open Scope list_scope.

(** ** Python string primitives *)

Module PyStr.

Definition is_upper (c : ascii) : bool :=
  let n := nat_of_ascii c in (65 <=? n)%nat && (n <=? 90)%nat.

Definition lower_char (c : ascii) : ascii :=
  if is_upper c then ascii_of_nat (nat_of_ascii c + 32) else c.

(** [s.lower()] *)
Fixpoint lower (s : string) : string :=
  match s with
  | EmptyString => EmptyString
  | String c s' => String (lower_char c) (lower s')
  end.

(** [c.isspace()] on ASCII: TAB..CR, FS..US and the blank. *)
Definition isspace (c : ascii) : bool :=
  let n := nat_of_ascii c in
  ((9 <=? n)%nat && (n <=? 13)%nat) || ((28 <=? n)%nat && (n <=? 32)%nat).

Definition isdigit (c : ascii) : bool :=
  let n := nat_of_ascii c in (48 <=? n)%nat && (n <=? 57)%nat.

Definition isalpha (c : ascii) : bool :=
  let n := nat_of_ascii c in
  ((65 <=? n)%nat && (n <=? 90)%nat) || ((97 <=? n)%nat && (n <=? 122)%nat).

Fixpoint lstrip (s : string) : string :=
  match s with
  | EmptyString => EmptyString
  | String c s' => if isspace c then lstrip s' else s
  end.

Fixpoint rstrip (s : string) : string :=
  match s with
  | EmptyString => EmptyString
  | String c s' =>
      match rstrip s' with
      | EmptyString => if isspace c then EmptyString else String c EmptyString
      | r => String c r
      end
  end.

(** [s.strip()] *)
Definition strip (s : string) : string := rstrip (lstrip s).

(** [s.startswith(p)] *)
Fixpoint startswith (p s : string) : bool :=
  match p, s with
  | EmptyString, _ => true
  | String a p', String b s' => Ascii.eqb a b && startswith p' s'
  | String _ _, EmptyString => false
  end.

(** [needle in hay] *)
Fixpoint contains (needle hay : string) : bool :=
  startswith needle hay ||
  match hay with
  | EmptyString => false
  | String _ hay' => contains needle hay'
  end.

(** [s.endswith(p)] *)
Fixpoint endswith (p s : string) : bool :=
  String.eqb p s ||
  match s with
  | EmptyString => false
  | String _ s' => endswith p s'
  end.

(** Non-overlapping occurrences counted from the left; [skip] is the
    number of characters still covered by the occurrence just counted. *)
Fixpoint count_from (needle s : string) (skip : nat) : nat :=
  match s with
  | EmptyString => 0
  | String _ s' =>
      match skip with
      | S k => count_from needle s' k
      | O =>
          if startswith needle s
          then S (count_from needle s' (String.length needle - 1))
          else count_from needle s' 0
      end
  end.

(** [s.count(needle)] *)
Definition count (s needle : string) : nat :=
  match needle with
  | EmptyString => S (String.length s)
  | _ => count_from needle s 0
  end.

(** [s.split(sep)] for a one-character separator: empty fields are kept
    and the result is never the empty list. *)
Fixpoint split_on (sep : ascii) (s : string) : list string :=
  match s with
  | EmptyString => [EmptyString]
  | String c s' =>
      if Ascii.eqb c sep then EmptyString :: split_on sep s'
      else match split_on sep s' with
           | w :: ws => String c w :: ws
           | [] => [String c EmptyString]
           end
  end.

(** [s.split()]: maximal runs of non-blank characters. *)
Fixpoint split_ws_aux (s : string) (cur : option string) : list string :=
  match s with
  | EmptyString => match cur with Some w => [w] | None => [] end
  | String c s' =>
      if isspace c
      then match cur with
           | Some w => w :: split_ws_aux s' None
           | None => split_ws_aux s' None
           end
      else match cur with
           | Some w => split_ws_aux s' (Some (w ++ String c EmptyString)%string)
           | None => split_ws_aux s' (Some (String c EmptyString))
           end
  end.

Definition split_ws (s : string) : list string := split_ws_aux s None.

(** [sep.join(l)] *)
Fixpoint join (sep : string) (l : list string) : string :=
  match l with
  | [] => EmptyString
  | [x] => x
  | x :: l' => (x ++ sep ++ join sep l')%string
  end.

(** Truthiness of a string. *)
Definition nonempty (s : string) : bool :=
  match s with EmptyString => false | _ => true end.

(** [l[:n]] *)
Definition take {A : Type} (n : nat) (l : list A) : list A := firstn n l.

(** [x in l] for a list of strings. *)
Definition mem (x : string) (l : list string) : bool :=
  existsb (String.eqb x) l.

(** [any(k in s for k in ks)] *)
Definition any_in (ks : list string) (s : string) : bool :=
  existsb (fun k => contains k s) ks.

Definition newline : ascii := ascii_of_nat 10.

End PyStr.

Import PyStr.

(** ** Dictionaries in insertion order *)

Module Dict.

Section Ops.
Context {V : Type}.

Definition t := list (string * V).

(** [d.get(k)] *)
Fixpoint get (k : string) (d : t) : option V :=
  match d with
  | [] => None
  | (k', v) :: d' => if String.eqb k k' then Some v else get k d'
  end.

(** [k in d] *)
Definition has (k : string) (d : t) : bool :=
  match get k d with Some _ => true | None => false end.

(** [d[k] = v]: an existing key keeps its place, a new key goes last. *)
Fixpoint set (k : string) (v : V) (d : t) : t :=
  match d with
  | [] => [(k, v)]
  | (k', v') :: d' =>
      if String.eqb k k' then (k', v) :: d' else (k', v') :: set k v d'
  end.

Definition keys (d : t) : list string := map fst d.
End Ops.

Arguments t : clear implicits.

End Dict.

(** ** resume_processor.py: the keyword database *)

(** [industry -> category -> keywords], as [ResumeProcessor.__init__]
    declares it. *)
Definition keyword_db := Dict.t (Dict.t (list string)).

Definition industry_keywords : keyword_db :=
  [ ("technology",
      [ ("programming",
          ["python"; "java"; "javascript"; "react"; "angular"; "nodejs";
           "sql"; "mongodb"; "docker"; "kubernetes"; "aws"; "azure"; "git";
           "agile"; "scrum"; "ci/cd"; "machine learning"; "ai";
           "data science"; "api"; "microservices"; "devops"]);
        ("soft_skills",
          ["problem-solving"; "teamwork"; "communication"; "leadership";
           "collaboration"; "critical thinking"; "innovation";
           "adaptability"]);
        ("certifications",
          ["aws certified"; "azure certified"; "google cloud"; "cissp";
           "comptia"; "certified scrum master"; "pmp"]);
        ("action_verbs",
          ["developed"; "implemented"; "designed"; "architected";
           "optimized"; "automated"; "scaled"; "migrated"; "deployed";
           "integrated"]) ]);
    ("marketing",
      [ ("skills",
          ["digital marketing"; "seo"; "sem"; "social media";
           "content marketing"; "email marketing"; "analytics";
           "google ads"; "facebook ads"; "conversion optimization";
           "a/b testing"; "crm"; "marketing automation"]);
        ("tools",
          ["google analytics"; "hubspot"; "mailchimp"; "salesforce";
           "hootsuite"; "canva"; "photoshop"; "wordpress"]);
        ("soft_skills",
          ["creativity"; "strategic thinking"; "communication";
           "project management"; "data analysis"; "brand management"]);
        ("action_verbs",
          ["launched"; "increased"; "generated"; "managed"; "created";
           "analyzed"; "optimized"; "drove"; "executed"; "coordinated"]) ]);
    ("finance",
      [ ("skills",
          ["financial analysis"; "budgeting"; "forecasting";
           "risk management"; "investment analysis";
           "portfolio management"; "financial modeling"; "valuation";
           "accounting"; "auditing"; "compliance"; "treasury management"]);
        ("tools",
          ["excel"; "bloomberg"; "sap"; "quickbooks"; "tableau";
           "power bi"; "python"; "r"; "sql"]);
        ("certifications",
          ["cfa"; "cpa"; "frm"; "caia"; "series 7"; "series 66"]);
        ("action_verbs",
          ["analyzed"; "evaluated"; "managed"; "optimized"; "forecasted";
           "assessed"; "monitored"; "advised"; "structured"; "executed"]) ]);
    ("healthcare",
      [ ("skills",
          ["patient care"; "clinical assessment"; "medical records";
           "hipaa compliance"; "electronic health records";
           "medical terminology"; "quality assurance"; "infection control";
           "care coordination"]);
        ("tools",
          ["epic"; "cerner"; "meditech"; "allscripts"; "emr systems"]);
        ("certifications",
          ["bls"; "acls"; "rn"; "lpn"; "cna"; "medical license";
           "board certification"]);
        ("action_verbs",
          ["administered"; "assessed"; "documented"; "coordinated";
           "monitored"; "educated"; "collaborated"; "implemented";
           "evaluated"; "managed"]) ]) ].

(** ** detect_industry *)

(** One pass of the inner loops of [detect_industry]: the running score
    grows by [text.count(keyword.lower())] when the keyword occurs. *)
Definition add_keyword_hits (text : string) (score : nat) (keyword : string)
  : nat :=
  if contains (lower keyword) text
  then score + count text (lower keyword)
  else score.

Definition industry_score (text : string) (keywords : Dict.t (list string))
  : nat :=
  fold_left
    (fun score cat => fold_left (add_keyword_hits text) (snd cat) score)
    keywords 0.

Definition industry_scores (db : keyword_db) (text : string) : Dict.t nat :=
  map (fun entry => (fst entry, industry_score text (snd entry))) db.

(** [max(d, key=d.get)] once a first candidate is in hand: a later key
    replaces the candidate only when its score is strictly larger. *)
Fixpoint max_by_score (best : string * nat) (rest : Dict.t nat) : string :=
  match rest with
  | [] => fst best
  | x :: rest' =>
      if (snd best <? snd x)%nat then max_by_score x rest'
      else max_by_score best rest'
  end.

Definition detect_industry (db : keyword_db) (text : string) : string :=
  match industry_scores db text with
  | [] => "general"
  | first :: rest => max_by_score first rest
  end.

(** ** Regular expressions, as the [re] module runs them

    The source only uses a small part of the pattern language: literals,
    character classes, greedy and lazy repetition of a character class,
    ordered alternation, optional parts, one capturing group, the word
    boundary and the end anchor.  Matching is by backtracking: an
    alternation tries its branches left to right, a greedy repetition
    tries the longest run first, a lazy one the shortest. *)

Module Re.

Inductive re : Type :=
| Eps
| Cls (p : ascii -> bool)
| Lit (s : string)
| Seq (a b : re)
| Alt (a b : re)
| Rep (greedy : bool) (least : nat) (p : ascii -> bool)
| Grp (a : re)
| WordB
| Eos.

Definition Opt (a : re) : re := Alt a Eps.
Definition seq (l : list re) : re := fold_right Seq Eps l.
Definition alt (a : re) (l : list re) : re := fold_left Alt l a.
Definition plus (p : ascii -> bool) : re := Rep true 1 p.
Definition star (p : ascii -> bool) : re := Rep true 0 p.
Fixpoint times (n : nat) (a : re) : re :=
  match n with O => Eps | S n' => Seq a (times n' a) end.

(** Character classes. *)
Definition chr (s : string) (c : ascii) : bool :=
  match s with
  | String a _ => Ascii.eqb a c
  | EmptyString => false
  end.
Definition one_of (s : string) (c : ascii) : bool :=
  contains (String c EmptyString) s.
Definition digit : ascii -> bool := isdigit.
Definition space : ascii -> bool := isspace.
Definition word (c : ascii) : bool :=
  isalpha c || isdigit c || chr "_" c.
Definition either (p q : ascii -> bool) (c : ascii) : bool := p c || q c.
Definition none_of (s : string) (c : ascii) : bool := negb (one_of s c).

(** A matcher walks the text with the character just before the current
    position at hand (for the word boundary) and the text of group 1. *)
Section Run.
Context {R : Type}.

Definition cont := option ascii -> string -> option string -> option R.

Fixpoint lit (l : string) (k : cont) (prev : option ascii) (s : string)
         (cap : option string) : option R :=
  match l with
  | EmptyString => k prev s cap
  | String a l' =>
      match s with
      | String c s' =>
          if Ascii.eqb a c then lit l' k (Some c) s' cap else None
      | EmptyString => None
      end
  end.

Fixpoint rep_greedy (p : ascii -> bool) (least : nat) (k : cont)
         (prev : option ascii) (s : string) (cap : option string)
  : option R :=
  let stop := match least with O => k prev s cap | S _ => None end in
  match s with
  | String c s' =>
      if p c
      then match rep_greedy p (pred least) k (Some c) s' cap with
           | Some r => Some r
           | None => stop
           end
      else stop
  | EmptyString => stop
  end.

Fixpoint rep_lazy (p : ascii -> bool) (least : nat) (k : cont)
         (prev : option ascii) (s : string) (cap : option string)
  : option R :=
  let more :=
    match s with
    | String c s' =>
        if p c then rep_lazy p (pred least) k (Some c) s' cap else None
    | EmptyString => None
    end in
  match least with
  | O => match k prev s cap with
         | Some r => Some r
         | None => more
         end
  | S _ => more
  end.

Definition is_word (c : option ascii) : bool :=
  match c with Some a => word a | None => false end.

Definition next_char (s : string) : option ascii :=
  match s with String c _ => Some c | EmptyString => None end.

Fixpoint run (r : re) (k : cont) (prev : option ascii) (s : string)
         (cap : option string) : option R :=
  match r with
  | Eps => k prev s cap
  | Cls p =>
      match s with
      | String c s' => if p c then k (Some c) s' cap else None
      | EmptyString => None
      end
  | Lit l => lit l k prev s cap
  | Seq a b => run a (fun prev' s' cap' => run b k prev' s' cap') prev s cap
  | Alt a b =>
      match run a k prev s cap with
      | Some x => Some x
      | None => run b k prev s cap
      end
  | Rep true least p => rep_greedy p least k prev s cap
  | Rep false least p => rep_lazy p least k prev s cap
  | Grp a =>
      run a
        (fun prev' s' _ =>
           k prev' s'
             (Some (substring 0 (String.length s - String.length s') s)))
        prev s cap
  | WordB =>
      if xorb (is_word prev) (is_word (next_char s))
      then k prev s cap else None
  | Eos =>
      match s with
      | EmptyString => k prev s cap
      | String c EmptyString =>
          if Ascii.eqb c newline then k prev s cap else None
      | _ => None
      end
  end.
End Run.

(** A match: its text, the text of group 1 if the group took part. *)
Record found := { m_text : string; m_group : option string }.

Definition match_here (r : re) (prev : option ascii) (s : string)
  : option found :=
  run r
    (fun _ s' cap =>
       Some {| m_text := substring 0 (String.length s - String.length s') s;
               m_group := cap |})
    prev s None.

(** [re.search(r, s)]: the leftmost match. *)
Fixpoint search_from (r : re) (prev : option ascii) (s : string)
  : option found :=
  match match_here r prev s with
  | Some m => Some m
  | None =>
      match s with
      | String c s' => search_from r (Some c) s'
      | EmptyString => None
      end
  end.

Definition search (r : re) (s : string) : option found :=
  search_from r None s.

(** The matches of [re.finditer(r, s)], left to right and not
    overlapping.  [skip] counts the characters still covered by the last
    match.  No pattern of the source matches the empty string; such a
    match would simply move on by one character here. *)
Fixpoint finditer_from (r : re) (prev : option ascii) (s : string)
         (skip : nat) : list found :=
  let here :=
    match skip with O => match_here r prev s | S _ => None end in
  let skip' :=
    match here with
    | Some m => String.length (m_text m) - 1
    | None => skip - 1
    end in
  let later :=
    match s with
    | String c s' => finditer_from r (Some c) s' skip'
    | EmptyString => []
    end in
  match here with
  | Some m => m :: later
  | None => later
  end.

Definition finditer (r : re) (s : string) : list found :=
  finditer_from r None s 0.

(** [re.findall(r, s)] for a pattern with one group: the group's text,
    empty when the group took no part. *)
Definition findall_group (r : re) (s : string) : list string :=
  map (fun m => match m_group m with Some g => g | None => EmptyString end)
      (finditer r s).

(** [re.findall(r, s)] for a pattern without a group. *)
Definition findall (r : re) (s : string) : list string :=
  map m_text (finditer r s).

(** [re.sub(r, repl, s)] for a pattern that matches no empty string. *)
Fixpoint sub_from (r : re) (repl : string) (prev : option ascii)
         (s : string) (skip : nat) : string :=
  match s with
  | EmptyString => EmptyString
  | String c s' =>
      match skip with
      | S k => sub_from r repl (Some c) s' k
      | O =>
          match match_here r prev s with
          | Some m =>
              match String.length (m_text m) with
              | O => String c (sub_from r repl (Some c) s' 0)
              | S n => (repl ++ sub_from r repl (Some c) s' n)%string
              end
          | None => String c (sub_from r repl (Some c) s' 0)
          end
      end
  end.

Definition sub (r : re) (repl s : string) : string :=
  sub_from r repl None s 0.

(** A pattern keeps its source text, which the code sometimes inspects. *)
Record pattern := { src : string; ast : re }.

End Re.

Import Re.

(** ** resume_processor.py: data *)

Definition phone_formats : list pattern :=
  [ {| src := "\(\d{3}\)\s\d{3}-\d{4}";
       ast := seq [Lit "("; times 3 (Cls digit); Lit ")"; Cls space;
                   times 3 (Cls digit); Lit "-"; times 4 (Cls digit)] |};
    {| src := "\d{3}-\d{3}-\d{4}";
       ast := seq [times 3 (Cls digit); Lit "-"; times 3 (Cls digit);
                   Lit "-"; times 4 (Cls digit)] |};
    {| src := "\d{3}\.\d{3}\.\d{4}";
       ast := seq [times 3 (Cls digit); Lit "."; times 3 (Cls digit);
                   Lit "."; times 4 (Cls digit)] |} ].

Definition email_format : pattern :=
  {| src := "\b[A-Za-z0-9._%+-]+@[A-Za-z0-9.-]+\.[A-Z|a-z]{2,}\b";
     ast := seq [WordB;
                 plus (either isalpha (either digit (one_of "._%+-")));
                 Lit "@";
                 plus (either isalpha (either digit (one_of ".-")));
                 Lit ".";
                 Rep true 2 (either isalpha (chr "|"));
                 WordB] |}.

Definition linkedin_format : pattern :=
  {| src := "linkedin\.com/in/[\w-]+";
     ast := seq [Lit "linkedin.com/in/"; plus (either word (chr "-"))] |}.

Definition github_format : pattern :=
  {| src := "github\.com/[\w-]+";
     ast := seq [Lit "github.com/"; plus (either word (chr "-"))] |}.

Definition metrics_format : pattern :=
  {| src := "\d+%|\$\d+|\d+\+";
     ast := alt (seq [plus digit; Lit "%"])
                [seq [Lit "$"; plus digit]; seq [plus digit; Lit "+"]] |}.

Record contact_info := {
  email : option string;
  phone : option string;
  linkedin : option string;
  github : option string
}.

(** The dict [analyze_keywords] returns; the two totals are absent from
    the one it returns for an industry it does not know. *)
Record keyword_analysis := {
  score : Q;
  found_keywords : list string;
  missing_keywords : list string;
  total_found : option nat;
  total_possible : option nat
}.

(** One recommendation; [extra] is the entry that only some of them
    carry (keywords, sections, examples or suggestions). *)
Record recommendation := {
  r_type : string;
  r_priority : string;
  r_title : string;
  r_description : string;
  r_action : string;
  r_extra : option (string * list string)
}.

(** Truthiness of a contact field: [None] and the empty string are false. *)
Definition truthy (o : option string) : bool :=
  match o with Some s => nonempty s | None => false end.

Definition Qnat (n : nat) : Q := inject_Z (Z.of_nat n).

(** [min(a, b)]: the first argument unless the second is smaller. *)
Definition py_min (a b : Q) : Q := if Qle_bool a b then a else b.

(** [a / b], raising ZeroDivisionError on a zero divisor. *)
Definition py_div (a b : Q) : option Q :=
  if Qeq_bool b 0 then None else Some (a / b)%Q.

(** [len(text.split())] *)
Definition word_count (text : string) : nat := List.length (split_ws text).

(** ** extract_sections *)

Definition section_headers : Dict.t (list string) :=
  [ ("experience", ["experience"; "work history"; "employment";
                    "professional experience"; "work experience"]);
    ("education", ["education"; "academic background"; "qualifications"]);
    ("skills", ["skills"; "technical skills"; "competencies"; "expertise"]);
    ("summary", ["summary"; "profile"; "objective"; "professional summary";
                 "career objective"]);
    ("projects", ["projects"; "key projects"; "notable projects"]);
    ("certifications", ["certifications"; "certificates"; "licenses"]) ].

(** The inner [for ... break]: the first section, in declaration order,
    one of whose headers occurs in the line. *)
Fixpoint first_header (headers : Dict.t (list string)) (line_lower : string)
  : option string :=
  match headers with
  | [] => None
  | (section_key, hs) :: rest =>
      if any_in hs line_lower then Some section_key
      else first_header rest line_lower
  end.

Definition header_of (line : string) : option string :=
  first_header section_headers (strip (lower line)).

(** The loop state: the dict built so far, the open section and the
    lines gathered for it. *)
Record seg_state := {
  sections : Dict.t string;
  current_section : option string;
  section_content : list string
}.

Definition nl : string := String newline EmptyString.

(** [if current_section and section_content: sections[...] = ...] *)
Definition flush (st : seg_state) : Dict.t string :=
  match current_section st, section_content st with
  | Some cur, _ :: _ =>
      if nonempty cur
      then Dict.set cur (join nl (section_content st)) (sections st)
      else sections st
  | _, _ => sections st
  end.

Definition seg_step (st : seg_state) (line : string) : seg_state :=
  match header_of line with
  | Some section_key =>
      {| sections := flush st;
         current_section := Some section_key;
         section_content := [] |}
  | None =>
      if truthy (current_section st)
      then {| sections := sections st;
              current_section := current_section st;
              section_content := section_content st ++ [line] |}
      else st
  end.

Definition seg_init : seg_state :=
  {| sections := []; current_section := None; section_content := [] |}.

Definition extract_sections_lines (text_lines : list string) : Dict.t string :=
  flush (fold_left seg_step text_lines seg_init).

Definition extract_sections (text : string) : Dict.t string :=
  extract_sections_lines (split_on newline text).

(** ** extract_contact_info *)

Definition group0 (m : option found) : option string := option_map m_text m.

Fixpoint first_phone (formats : list pattern) (text : string) : option string :=
  match formats with
  | [] => None
  | p :: rest =>
      match search (ast p) text with
      | Some m => Some (m_text m)
      | None => first_phone rest text
      end
  end.

Definition extract_contact_info (text : string) : contact_info :=
  {| email := group0 (search (ast email_format) text);
     phone := first_phone phone_formats text;
     linkedin := group0 (search (ast linkedin_format) (lower text));
     github := group0 (search (ast github_format) (lower text)) |}.

(** ** analyze_keywords *)

Definition sort_keyword (text : string) (acc : list string * list string * nat)
           (keyword : string) : list string * list string * nat :=
  let '(found, missing, total) := acc in
  if contains (lower keyword) text
  then (found ++ [keyword], missing, S total)
  else (found, missing ++ [keyword], S total).

Definition sort_keywords (text : string) (industry_data : Dict.t (list string))
  : list string * list string * nat :=
  fold_left (fun acc cat => fold_left (sort_keyword text) (snd cat) acc)
            industry_data ([], [], 0).

Definition analyze_keywords (db : keyword_db) (text industry : string)
  : option keyword_analysis :=
  match Dict.get industry db with
  | None =>
      Some {| score := 50; found_keywords := []; missing_keywords := [];
              total_found := None; total_possible := None |}
  | Some industry_data =>
      let '(found, missing, total) := sort_keywords text industry_data in
      let keyword_score :=
        if (0 <? total)%nat
        then option_map (fun q => q * 100)%Q
                        (py_div (Qnat (List.length found)) (Qnat total))
        else Some 0%Q in
      match keyword_score with
      | None => None
      | Some ks =>
          Some {| score := py_min 100 ks;
                  found_keywords := take 20 found;
                  missing_keywords := take 10 missing;
                  total_found := Some (List.length found);
                  total_possible := Some total |}
      end
  end.

(** ** calculate_ats_score *)

Definition required_sections : list string :=
  ["experience"; "education"; "skills"].

Definition section_score (sections : Dict.t string) : Q :=
  (Qnat (List.length (filter (fun s => Dict.has s sections) required_sections))
   / Qnat (List.length required_sections) * 40)%Q.

Definition contact_score (c : contact_info) : Q :=
  ((if truthy (email c) then 10 else 0) +
   (if truthy (phone c) then 10 else 0))%Q.

Definition format_score (text : string) : Q :=
  (10 - (if (word_count text <? 200)%nat then 3 else 0)
      - (if (800 <? word_count text)%nat then 2 else 0))%Q.

Definition calculate_ats_score (text : string) (sections : Dict.t string)
           (c : contact_info) (ka : keyword_analysis) : Q :=
  let max_score := 100%Q in
  let score0 := 0%Q in
  let score1 := (score0 + section_score sections)%Q in
  let score2 := (score1 + contact_score c)%Q in
  let keyword_score := (score ka / 100 * 30)%Q in
  let score3 := (score2 + keyword_score)%Q in
  let score4 := (score3 + format_score text)%Q in
  py_min max_score score4.

(** ** identify_strengths, identify_weaknesses *)

Definition Qlt_bool (a b : Q) : bool := negb (Qle_bool b a).

Definition when {A : Type} (b : bool) (x : A) : list A :=
  if b then [x] else [].

Definition identify_strengths (text : string) (sections : Dict.t string)
           (ka : keyword_analysis) : list string :=
  when (Qlt_bool 70 (score ka)) "Strong industry keyword optimization"
  ++ when (5 <=? List.length sections)%nat
          "Well-structured with comprehensive sections"
  ++ when (match Dict.get "experience" sections with
           | Some body => (100 <? word_count body)%nat
           | None => false
           end)
          "Detailed work experience descriptions"
  ++ when (any_in ["achieved"; "increased"; "improved"; "reduced"; "generated"]
                  (lower text))
          "Includes quantifiable achievements"
  ++ when (300 <? word_count text)%nat "Adequate length and detail".

Fixpoint any_char (p : ascii -> bool) (s : string) : bool :=
  match s with
  | EmptyString => false
  | String c s' => p c || any_char p s'
  end.

Definition identify_weaknesses (text : string) (sections : Dict.t string)
           (c : contact_info) (ka : keyword_analysis) : list string :=
  when (negb (truthy (email c))) "Missing email address"
  ++ when (negb (truthy (phone c))) "Missing phone number"
  ++ when (Qlt_bool (score ka) 40) "Insufficient industry-relevant keywords"
  ++ when (negb (Dict.has "summary" sections))
          "Missing professional summary section"
  ++ when (word_count text <? 250)%nat "Resume content too brief"
  ++ when (negb (any_char isdigit text))
          "No quantified achievements or metrics".

(** ** generate_recommendations *)

Definition keyword_recommendation (ka : keyword_analysis) : recommendation :=
  let missing := take 5 (missing_keywords ka) in
  {| r_type := "keywords";
     r_priority := "high";
     r_title := "Add Industry Keywords";
     r_description :=
       ("Include these relevant keywords: " ++ join ", " missing)%string;
     r_action := "keyword_optimization";
     r_extra := Some ("keywords", missing) |}.

Definition contact_recommendation (c : contact_info) : recommendation :=
  let missing_contact :=
    when (negb (truthy (email c))) "email"
    ++ when (negb (truthy (phone c))) "phone number" in
  {| r_type := "contact";
     r_priority := "high";
     r_title := "Add Missing Contact Information";
     r_description := ("Include your " ++ join " and " missing_contact)%string;
     r_action := "add_contact_info";
     r_extra := None |}.

Definition missing_sections (sections : Dict.t string) : list string :=
  filter (fun required => negb (Dict.has required sections))
         ["experience"; "education"; "skills"; "summary"].

Definition structure_recommendation (missing : list string) : recommendation :=
  {| r_type := "structure";
     r_priority := "medium";
     r_title := "Add Missing Sections";
     r_description := ("Include these sections: " ++ join ", " missing)%string;
     r_action := "add_sections";
     r_extra := Some ("sections", missing) |}.

Definition metrics_recommendation : recommendation :=
  {| r_type := "content";
     r_priority := "medium";
     r_title := "Add Quantifiable Achievements";
     r_description :=
       "Include specific numbers, percentages, and metrics to demonstrate impact";
     r_action := "add_metrics";
     r_extra := Some ("examples",
                      ["Increased sales by 25%"; "Managed team of 10+";
                       "Reduced costs by $50K"]) |}.

Definition weak_verbs : list string :=
  ["responsible for"; "duties included"; "worked on"].

Definition strong_verbs (db : keyword_db) (industry : string) : list string :=
  match Dict.get industry db with
  | Some cats =>
      match Dict.get "action_verbs" cats with
      | Some verbs => verbs
      | None => []
      end
  | None => []
  end.

Definition verbs_recommendation (db : keyword_db) (industry : string)
  : recommendation :=
  {| r_type := "content";
     r_priority := "low";
     r_title := "Strengthen Action Verbs";
     r_description := "Replace weak phrases with strong action verbs";
     r_action := "improve_verbs";
     r_extra := Some ("suggestions", take 8 (strong_verbs db industry)) |}.

(** The five conditions of the checklist, in the order they are tested. *)
Definition needs_keywords (ka : keyword_analysis) : bool :=
  Qlt_bool (score ka) 60.
Definition needs_contact (c : contact_info) : bool :=
  negb (truthy (email c)) || negb (truthy (phone c)).
Definition needs_sections (sections : Dict.t string) : bool :=
  match missing_sections sections with [] => false | _ => true end.
Definition needs_metrics (text : string) : bool :=
  match search (ast metrics_format) text with Some _ => false | None => true end.
Definition needs_verbs (text : string) : bool :=
  any_in weak_verbs (lower text).

Definition generate_recommendations (db : keyword_db) (text : string)
           (sections : Dict.t string) (c : contact_info)
           (ka : keyword_analysis) (industry : string) (ats_score : Q)
  : list recommendation :=
  let recommendations := [] in
  let recommendations :=
    if needs_keywords ka
    then recommendations ++ [keyword_recommendation ka]
    else recommendations in
  let recommendations :=
    if needs_contact c
    then recommendations ++ [contact_recommendation c]
    else recommendations in
  let recommendations :=
    if needs_sections sections
    then recommendations ++ [structure_recommendation (missing_sections sections)]
    else recommendations in
  let recommendations :=
    if needs_metrics text
    then recommendations ++ [metrics_recommendation]
    else recommendations in
  let recommendations :=
    if needs_verbs text
    then recommendations ++ [verbs_recommendation db industry]
    else recommendations in
  recommendations.

(** ** analyze_resume_content and parse_resume

    The document readers (PyPDF2, python-docx), the UTF-8 codec, the NLTK
    sentence splitter and the textstat readability formula are libraries
    outside the repository; the analysis is stated over any behaviour of
    theirs.  A reader or a library call that raises returns [None]. *)

Record analysis := {
  a_text : string;
  a_word_count : nat;
  a_sentence_count : nat;
  a_readability_score : Q;
  a_sections : Dict.t string;
  a_contact_info : contact_info;
  a_detected_industry : string;
  a_keyword_analysis : keyword_analysis;
  a_ats_score : Q;
  a_recommendations : list recommendation;
  a_strengths : list string;
  a_weaknesses : list string
}.

(** What [parse_resume] returns: the error dict or the analysis. *)
Inductive parsed :=
| ParseError (message : string)
| Parsed (a : analysis).

(** The dict under the key [analysis] of the upload result. *)
Record summary := {
  s_strengths : list string;
  s_weaknesses : list string;
  s_suggestions : list string;
  s_keyword_score : Q;
  s_format_score : Q;
  s_content_score : Q
}.

(** The upload result; the fallbacks leave some keys out. *)
Record upload_analysis := {
  u_industry : string;
  u_experience_level : string;
  u_ats_score : Q;
  u_analysis : summary;
  u_text : option string;
  u_word_count : option nat;
  u_readability_score : option Q;
  u_sections : option (Dict.t string);
  u_contact_info : option contact_info;
  u_recommendations : list recommendation
}.

Definition bytes := list Byte.byte.

Section Pipeline.
Variable db : keyword_db.
Variable pdf_pages : bytes -> option (list string).
Variable docx_paragraphs : bytes -> option (list string).
Variable decode_utf8_ignore : bytes -> string.
Variable sent_tokenize : string -> option (list string).
Variable flesch_reading_ease : string -> option Q.

Definition lines_of (parts : list string) : string :=
  fold_left (fun text part => (text ++ part ++ nl)%string) parts EmptyString.

(** [try: ... except Exception: return ""] *)
Definition extract_text_from_pdf (file_bytes : bytes) : string :=
  match pdf_pages file_bytes with
  | Some pages => lines_of pages
  | None => EmptyString
  end.

Definition extract_text_from_docx (file_bytes : bytes) : string :=
  match docx_paragraphs file_bytes with
  | Some paragraphs => lines_of paragraphs
  | None => EmptyString
  end.

Definition analyze_resume_content (text : string) : option analysis :=
  let text_lower := lower text in
  let word_count := word_count text in
  match sent_tokenize text with
  | None => None
  | Some sentences =>
  match flesch_reading_ease text with
  | None => None
  | Some readability =>
  let sections := extract_sections text in
  let contact := extract_contact_info text in
  let detected_industry := detect_industry db text_lower in
  match analyze_keywords db text_lower detected_industry with
  | None => None
  | Some ka =>
  let ats_score := calculate_ats_score text sections contact ka in
  let recommendations :=
    generate_recommendations db text sections contact ka detected_industry
                             ats_score in
  Some {| a_text := text;
          a_word_count := word_count;
          a_sentence_count := List.length sentences;
          a_readability_score := readability;
          a_sections := sections;
          a_contact_info := contact;
          a_detected_industry := detected_industry;
          a_keyword_analysis := ka;
          a_ats_score := ats_score;
          a_recommendations := recommendations;
          a_strengths := identify_strengths text sections ka;
          a_weaknesses := identify_weaknesses text sections contact ka |}
  end end end.

Definition parse_resume (file_bytes : bytes) (filename : string)
  : option parsed :=
  let text :=
    if endswith ".pdf" (lower filename)
    then extract_text_from_pdf file_bytes
    else if endswith ".docx" (lower filename)
              || endswith ".doc" (lower filename)
    then extract_text_from_docx file_bytes
    else decode_utf8_ignore file_bytes in
  if negb (nonempty (strip text))
  then Some (ParseError "Could not extract text from resume")
  else option_map Parsed (analyze_resume_content text).

End Pipeline.

(** ** advanced_main.py: the upload handler's analysis *)

Module AdvancedMain.

Section Upload.
Variable db : keyword_db.
Variable pdf_pages : bytes -> option (list string).
Variable docx_paragraphs : bytes -> option (list string).
Variable decode_utf8_ignore : bytes -> string.
Variable sent_tokenize : string -> option (list string).
Variable flesch_reading_ease : string -> option Q.

Definition parse_fallback : upload_analysis :=
  {| u_industry := "general";
     u_experience_level := "mid";
     u_ats_score := 60;
     u_analysis :=
       {| s_strengths := ["Resume uploaded successfully"];
          s_weaknesses := ["Could not fully parse resume content"];
          s_suggestions := ["Try uploading in PDF or DOCX format"];
          s_keyword_score := 60;
          s_format_score := 70;
          s_content_score := 60 |};
     u_text := Some "Resume content could not be extracted";
     u_word_count := None;
     u_readability_score := None;
     u_sections := None;
     u_contact_info := None;
     u_recommendations := [] |}.

Definition exception_fallback : upload_analysis :=
  {| u_industry := "general";
     u_experience_level := "mid";
     u_ats_score := 55;
     u_analysis :=
       {| s_strengths := ["Resume uploaded"];
          s_weaknesses := ["Analysis temporarily unavailable"];
          s_suggestions := ["Please try again or contact support"];
          s_keyword_score := 55;
          s_format_score := 60;
          s_content_score := 50 |};
     u_text := None;
     u_word_count := None;
     u_readability_score := None;
     u_sections := None;
     u_contact_info := None;
     u_recommendations := [] |}.

Definition upload_of_analysis (a : analysis) : upload_analysis :=
  {| u_industry := a_detected_industry a;
     u_experience_level := "mid";
     u_ats_score := a_ats_score a;
     u_analysis :=
       {| s_strengths := a_strengths a;
          s_weaknesses := a_weaknesses a;
          s_suggestions := map r_description (a_recommendations a);
          s_keyword_score := score (a_keyword_analysis a);
          s_format_score := py_min 100 (a_ats_score a + 10)%Q;
          s_content_score := a_ats_score a |};
     u_text := Some (a_text a);
     u_word_count := Some (a_word_count a);
     u_readability_score := Some (a_readability_score a);
     u_sections := Some (a_sections a);
     u_contact_info := Some (a_contact_info a);
     u_recommendations := a_recommendations a |}.

(** The upload handler's analysis: [try] the parse, fall back on the
    error dict and on any exception. *)
Definition analyze_resume_content (file_bytes : bytes)
           (filename title : string) : upload_analysis :=
  match parse_resume db pdf_pages docx_paragraphs decode_utf8_ignore
                     sent_tokenize flesch_reading_ease file_bytes filename
  with
  | Some (ParseError _) => parse_fallback
  | Some (Parsed a) => upload_of_analysis a
  | None => exception_fallback
  end.
End Upload.

End AdvancedMain.

(** ** job_matcher.py *)

Module JobMatcher.

Definition ws : re := star space.
Definition opt_s : re := Opt (Lit "s").
Definition quote_s : ascii -> bool := one_of "'s".
Definition phrase_chars : ascii -> bool := either word space.
Definition not_dot : ascii -> bool := none_of ".".
Definition sep : re := Opt (Cls (one_of ":,")).

Definition experience_patterns : list pattern :=
  [ {| src := "(\d+)[\+]?\s*years?\s*(?:of\s*)?(?:experience|exp)";
       ast := seq [Grp (plus digit); Opt (Cls (chr "+")); ws; Lit "year";
                   opt_s; ws; Opt (seq [Lit "of"; ws]);
                   Alt (Lit "experience") (Lit "exp")] |};
    {| src := "(\d+)[\+]?\s*years?\s*(?:in|with|of)";
       ast := seq [Grp (plus digit); Opt (Cls (chr "+")); ws; Lit "year";
                   opt_s; ws; alt (Lit "in") [Lit "with"; Lit "of"]] |};
    {| src := "minimum\s*(\d+)\s*years?";
       ast := seq [Lit "minimum"; ws; Grp (plus digit); ws; Lit "year";
                   opt_s] |};
    {| src := "at\s*least\s*(\d+)\s*years?";
       ast := seq [Lit "at"; ws; Lit "least"; ws; Grp (plus digit); ws;
                   Lit "year"; opt_s] |} ].

Definition in_field : re := Opt (seq [ws; Lit "in"; ws; plus phrase_chars]).

Definition education_patterns : list pattern :=
  [ {| src := "bachelor[\'s]?\s*(?:degree)?(?:\s*in\s*[\w\s]+)?";
       ast := seq [Lit "bachelor"; Opt (Cls quote_s); ws; Opt (Lit "degree");
                   in_field] |};
    {| src := "master[\'s]?\s*(?:degree)?(?:\s*in\s*[\w\s]+)?";
       ast := seq [Lit "master"; Opt (Cls quote_s); ws; Opt (Lit "degree");
                   in_field] |};
    {| src := "phd|doctorate";
       ast := Alt (Lit "phd") (Lit "doctorate") |};
    {| src := "associate[\'s]?\s*degree";
       ast := seq [Lit "associate"; Opt (Cls quote_s); ws; Lit "degree"] |};
    {| src := "high\s*school|diploma";
       ast := Alt (seq [Lit "high"; ws; Lit "school"]) (Lit "diploma") |} ].

Definition specific_experience_pattern : pattern :=
  {| src := "experience\s*(?:in|with|of)\s*([\w\s,.-]+?)(?:\.|,|;|\n|$)";
     ast := seq [Lit "experience"; ws; alt (Lit "in") [Lit "with"; Lit "of"];
                 ws; Grp (Rep false 1 (either phrase_chars (one_of ",.-")));
                 alt (Lit ".") [Lit ","; Lit ";"; Cls (Ascii.eqb newline);
                                Eos]] |}.

Definition field_pattern : pattern :=
  {| src := "(?:bachelor|master|degree)(?:[\'s]?)?\s*in\s*([\w\s]+)";
     ast := seq [alt (Lit "bachelor") [Lit "master"; Lit "degree"];
                 Opt (Opt (Cls quote_s)); ws; Lit "in"; ws;
                 Grp (plus phrase_chars)] |}.

Definition cert_patterns : list pattern :=
  [ {| src := "certified?\s*(?:in\s*)?([\w\s]+)";
       ast := seq [Lit "certifie"; Opt (Lit "d"); ws;
                   Opt (seq [Lit "in"; ws]); Grp (plus phrase_chars)] |};
    {| src := "certification\s*(?:in\s*)?([\w\s]+)";
       ast := seq [Lit "certification"; ws; Opt (seq [Lit "in"; ws]);
                   Grp (plus phrase_chars)] |};
    {| src := "license\s*(?:in\s*)?([\w\s]+)";
       ast := seq [Lit "license"; ws; Opt (seq [Lit "in"; ws]);
                   Grp (plus phrase_chars)] |} ].

Definition in_or_with : re := Alt (Lit "in") (Lit "with").

Definition required_patterns : list pattern :=
  [ {| src := "(?:required|must\s*have|mandatory)[:,]?\s*([^.]+)";
       ast := seq [alt (Lit "required")
                       [seq [Lit "must"; ws; Lit "have"]; Lit "mandatory"];
                   sep; ws; Grp (plus not_dot)] |};
    {| src := "(?:experience\s*(?:in|with)|proficient\s*(?:in|with))[:,]?\s*([^.]+)";
       ast := seq [Alt (seq [Lit "experience"; ws; in_or_with])
                       (seq [Lit "proficient"; ws; in_or_with]);
                   sep; ws; Grp (plus not_dot)] |} ].

Definition preferred_patterns : list pattern :=
  [ {| src := "(?:preferred|nice\s*to\s*have|bonus|plus)[:,]?\s*([^.]+)";
       ast := seq [alt (Lit "preferred")
                       [seq [Lit "nice"; ws; Lit "to"; ws; Lit "have"];
                        Lit "bonus"; Lit "plus"];
                   sep; ws; Grp (plus not_dot)] |};
    {| src := "(?:familiarity\s*with|knowledge\s*of)[:,]?\s*([^.]+)";
       ast := seq [Alt (seq [Lit "familiarity"; ws; Lit "with"])
                       (seq [Lit "knowledge"; ws; Lit "of"]);
                   sep; ws; Grp (plus not_dot)] |} ].

Definition connector_pattern : pattern :=
  {| src := "\band\b|\bor\b";
     ast := Alt (seq [WordB; Lit "and"; WordB])
                (seq [WordB; Lit "or"; WordB]) |}.

Definition skill_categories : Dict.t (list string) :=
  [ ("programming_languages",
      ["python"; "java"; "javascript"; "c++"; "c#"; "php"; "ruby"; "go";
       "rust"; "swift"; "kotlin"; "scala"; "r"; "matlab"; "sql"]);
    ("web_technologies",
      ["html"; "css"; "react"; "angular"; "vue"; "nodejs"; "express";
       "django"; "flask"; "spring"; "asp.net"; "bootstrap"]);
    ("databases",
      ["mysql"; "postgresql"; "mongodb"; "redis"; "elasticsearch";
       "cassandra"; "oracle"; "sql server"; "dynamodb"]);
    ("cloud_platforms",
      ["aws"; "azure"; "google cloud"; "gcp"; "heroku"; "digitalocean";
       "kubernetes"; "docker"; "terraform"]);
    ("tools_frameworks",
      ["git"; "jenkins"; "docker"; "kubernetes"; "ansible"; "puppet";
       "chef"; "nagios"; "prometheus"; "grafana"]);
    ("data_science",
      ["machine learning"; "deep learning"; "tensorflow"; "pytorch";
       "scikit-learn"; "pandas"; "numpy"; "matplotlib"; "tableau";
       "power bi"]);
    ("soft_skills",
      ["leadership"; "communication"; "teamwork"; "problem-solving";
       "critical thinking"; "project management"; "agile"; "scrum"]) ].

Record experience_info := {
  min_years : Z;
  max_years : option Z;
  specific_experience : list string;
  level : string
}.

Record education_info := {
  degree_required : bool;
  degree_level : option string;
  preferred_fields : list string;
  certifications : list string
}.

Record skills_info := {
  required_skills : list string;
  preferred_skills : list string;
  categorized_skills : Dict.t (list string);
  skill_frequency : Dict.t nat
}.

Record requirements := {
  experience : experience_info;
  education : education_info;
  skills : skills_info
}.

(** [int(s)] for a string of decimal digits; [None] is the ValueError. *)
Fixpoint int_digits (s : string) (acc : Z) : option Z :=
  match s with
  | EmptyString => Some acc
  | String c s' =>
      if isdigit c
      then int_digits s' (10 * acc + Z.of_nat (nat_of_ascii c - 48))%Z
      else None
  end.

Definition int_of (s : string) : option Z :=
  match s with
  | EmptyString => None
  | _ => int_digits s 0%Z
  end.

(** The [try: years_found.append(int(match)) except ValueError: continue]
    loop over every pattern and every match. *)
Definition years_in (text : string) (p : pattern) : list Z :=
  flat_map (fun m => match int_of m with Some y => [y] | None => [] end)
           (findall_group (ast p) text).

Definition years_found (text : string) : list Z :=
  flat_map (years_in text) experience_patterns.

Definition list_min (y : Z) (ys : list Z) : Z := fold_left Z.min ys y.
Definition list_max (y : Z) (ys : list Z) : Z := fold_left Z.max ys y.

(** [len(set(ys)) > 1] for a list starting with [y]. *)
Definition several_values (y : Z) (ys : list Z) : bool :=
  existsb (fun z => negb (Z.eqb z y)) ys.

Definition level_of (min_years : Z) : string :=
  if (min_years =? 0)%Z then "entry"
  else if (min_years <=? 2)%Z then "junior"
  else if (min_years <=? 5)%Z then "mid"
  else "senior".

(** [[x.strip() for x in l if len(x.strip()) > n]] *)
Definition stripped_longer_than (n : nat) (l : list string) : list string :=
  map strip (filter (fun x => (n <? String.length (strip x))%nat) l).

Definition extract_experience_requirements (job_text : string)
  : experience_info :=
  let job_text_lower := lower job_text in
  let found := years_found job_text_lower in
  let min_years :=
    match found with y :: ys => list_min y ys | [] => 0%Z end in
  let max_years :=
    match found with
    | y :: ys => if several_values y ys then Some (list_max y ys) else None
    | [] => None
    end in
  {| min_years := min_years;
     max_years := max_years;
     specific_experience :=
       stripped_longer_than 3
         (findall_group (ast specific_experience_pattern) job_text_lower);
     level := level_of min_years |}.

(** The level a matching pattern stands for, read off its source text. *)
Definition level_of_pattern (p : pattern) : option string :=
  if contains "bachelor" (src p) then Some "bachelor"
  else if contains "master" (src p) then Some "master"
  else if contains "phd" (src p) || contains "doctorate" (src p)
  then Some "doctorate"
  else None.

Fixpoint first_degree (patterns : list pattern) (text : string)
  : bool * option string :=
  match patterns with
  | [] => (false, None)
  | p :: rest =>
      match search (ast p) text with
      | Some _ => (true, level_of_pattern p)
      | None => first_degree rest text
      end
  end.

Definition extract_education_requirements (job_text : string)
  : education_info :=
  let job_text_lower := lower job_text in
  let '(required, degree) := first_degree education_patterns job_text_lower in
  {| degree_required := required;
     degree_level := degree;
     preferred_fields :=
       stripped_longer_than 2
         (findall_group (ast field_pattern) job_text_lower);
     certifications :=
       flat_map (fun p => stripped_longer_than 2
                            (findall_group (ast p) job_text_lower))
                cert_patterns |}.

Definition comma : ascii := ascii_of_nat 44.

Definition parse_skill_list (skill_text : string) : list string :=
  let skill_text := sub (ast connector_pattern) "," skill_text in
  let skills := map strip (split_on comma skill_text) in
  let filtered_skills :=
    filter (fun skill =>
              (2 <? String.length skill)%nat
              && negb (mem skill ["etc"; "experience"; "knowledge"; "work"]))
           skills in
  take 10 filtered_skills.

(** The skills every match of every pattern of a list contributes. *)
Definition skills_matching (patterns : list pattern) (text : string)
  : list string :=
  flat_map (fun p => flat_map parse_skill_list (findall_group (ast p) text))
           patterns.

(** [dict(Counter(l))]: each distinct entry with its count, in order of
    first appearance. *)
Definition counter (l : list string) : Dict.t nat :=
  fold_left
    (fun d x => Dict.set x (S (match Dict.get x d with
                               | Some n => n
                               | None => 0
                               end)) d)
    l [].

Definition extract_skill_requirements (job_text : string) : skills_info :=
  let job_text_lower := lower job_text in
  let required := skills_matching required_patterns job_text_lower in
  let preferred := skills_matching preferred_patterns job_text_lower in
  let all_skills := required ++ preferred in
  {| required_skills := required;
     preferred_skills := preferred;
     categorized_skills :=
       map (fun cat =>
              (fst cat,
               filter (fun skill => any_in (snd cat) (lower skill))
                      all_skills))
           skill_categories;
     skill_frequency := counter all_skills |}.

Definition determine_job_level (job_text : string) : string :=
  let senior_indicators :=
    ["senior"; "lead"; "principal"; "staff"; "architect"; "manager";
     "director"] in
  let junior_indicators :=
    ["junior"; "entry"; "associate"; "intern"; "graduate"] in
  let mid_indicators := ["mid"; "intermediate"] in
  let job_text_lower := lower job_text in
  if any_in senior_indicators job_text_lower then "senior"
  else if any_in junior_indicators job_text_lower then "junior"
  else if any_in mid_indicators job_text_lower then "mid"
  else "mid".

Definition job_industry_keywords : Dict.t (list string) :=
  [ ("technology", ["software"; "developer"; "engineer"; "programming";
                    "coding"; "tech"; "api"; "database"]);
    ("finance", ["finance"; "banking"; "investment"; "portfolio";
                 "trading"; "financial"; "accounting"]);
    ("healthcare", ["healthcare"; "medical"; "hospital"; "patient";
                    "clinical"; "health"; "medicine"]);
    ("marketing", ["marketing"; "advertising"; "campaign"; "brand";
                   "digital"; "social media"; "content"]);
    ("sales", ["sales"; "business development"; "account"; "client";
               "customer"; "revenue"]);
    ("consulting", ["consulting"; "consultant"; "advisory"; "strategy";
                    "business analyst"]) ].

Definition detect_job_industry (job_text : string) : string :=
  let industry_scores :=
    map (fun entry =>
           (fst entry,
            fold_left (fun total keyword => total + count job_text keyword)
                      (snd entry) 0))
        job_industry_keywords in
  match industry_scores with
  | [] => "general"
  | first :: rest => max_by_score first rest
  end.

(** The part of [parse_job_description] that does not go through the
    NLTK tokeniser: the [keywords] entry is left out, as are [benefits]
    and [company_info], which no requirement depends on. *)
Record job_info := {
  raw_text : string;
  job_word_count : nat;
  job_requirements : requirements;
  job_level : string;
  industry : string
}.

Definition parse_job_description (job_text : string) : job_info :=
  let job_text_lower := lower job_text in
  {| raw_text := job_text;
     job_word_count := word_count job_text;
     job_requirements :=
       {| experience := extract_experience_requirements job_text;
          education := extract_education_requirements job_text;
          skills := extract_skill_requirements job_text |};
     job_level := determine_job_level job_text_lower;
     industry := detect_job_industry job_text_lower |}.

(** *** Match scoring *)

(** The resume dict as the scorer reads it: every key may be absent. *)
Record keyword_dict := { k_found_keywords : option (list string) }.

Record resume := {
  detected_industry : option string;
  resume_keyword_analysis : option keyword_dict
}.

Definition calculate_experience_match (r : resume)
           (job_requirements : experience_info) : Z :=
  let resume_experience :=
    match detected_industry r with Some i => i | None => EmptyString end in
  if (min_years job_requirements =? 0)%Z then 90%Z
  else if (min_years job_requirements <=? 3)%Z then 75%Z
  else 60%Z.

Definition resume_keywords (r : resume) : list string :=
  match resume_keyword_analysis r with
  | Some ka =>
      match k_found_keywords ka with Some l => l | None => [] end
  | None => []
  end.

(** [sum(1 for skill in skills if any(skill in k for k in keywords))] *)
Definition matches (skills keywords : list string) : nat :=
  List.length
    (filter (fun skill => existsb (fun k => contains skill k) keywords) skills).

(** [(matches / len(skills) * points) if skills else points] *)
Definition points_for (skills keywords : list string) (points : Q)
  : option Q :=
  match skills with
  | [] => Some points
  | _ :: _ =>
      option_map (fun ratio => ratio * points)%Q
                 (py_div (Qnat (matches skills keywords))
                         (Qnat (List.length skills)))
  end.

Definition calculate_skills_match (r : resume) (job_skills : skills_info)
  : option Q :=
  let resume_keywords_lower := map lower (resume_keywords r) in
  let required := map lower (required_skills job_skills) in
  let preferred := map lower (preferred_skills job_skills) in
  match points_for required resume_keywords_lower 80,
        points_for preferred resume_keywords_lower 20 with
  | Some required_score, Some preferred_score =>
      Some (py_min 100 (required_score + preferred_score)%Q)
  | _, _ => None
  end.

(** *** The remaining scorers *)

Definition calculate_education_match (r : resume)
           (job_education : education_info) : Z :=
  if negb (degree_required job_education) then 100%Z else 75%Z.

Definition transferable : list string := ["technology"; "general"].

(** [resume.get('detected_industry', '')] *)
Definition resume_industry (r : resume) : string :=
  match detected_industry r with Some i => i | None => EmptyString end.

Definition calculate_industry_match (r : resume) (job : job_info) : Z :=
  let job_industry := industry job in
  if String.eqb (resume_industry r) job_industry then 100%Z
  else if mem (resume_industry r) transferable || mem job_industry transferable
  then 70%Z
  else 50%Z.

(** The four entries of [category_scores]. *)
Record category_scores := {
  experience_score : Q;
  skills_score : Q;
  education_score : Q;
  industry_score_of : Q
}.

(** A recommendation of the match insights; only the skills one carries
    the [skills] entry. *)
Record match_recommendation := {
  mr_type : string;
  mr_priority : string;
  mr_title : string;
  mr_description : string;
  mr_skills : option (list string)
}.

Record insights := {
  i_strengths : list string;
  i_gaps : list string;
  i_recommendations : list match_recommendation
}.

(** The required skills, among the first five, that occur in no resume
    keyword. *)
Definition missing_required (r : resume) (job_skills : skills_info)
  : list string :=
  let resume_keywords := map lower (resume_keywords r) in
  filter (fun skill =>
            negb (existsb (fun kw => contains (lower skill) kw)
                          resume_keywords))
         (take 5 (required_skills job_skills)).

Definition add_skills_recommendation (missing : list string)
  : match_recommendation :=
  {| mr_type := "add_skills";
     mr_priority := "high";
     mr_title := "Add Missing Required Skills";
     mr_description :=
       ("Consider adding these skills: " ++ join ", " missing)%string;
     mr_skills := Some missing |}.

Definition highlight_experience_recommendation : match_recommendation :=
  {| mr_type := "highlight_experience";
     mr_priority := "medium";
     mr_title := "Emphasize Relevant Experience";
     mr_description :=
       "Highlight projects and achievements that demonstrate the required experience level";
     mr_skills := None |}.

Definition generate_match_insights (r : resume) (job : job_info)
           (scores : category_scores) : insights :=
  {| i_strengths :=
       when (Qle_bool 80 (skills_score scores))
            "Strong skills alignment with job requirements"
       ++ when (Qle_bool 80 (experience_score scores))
               "Experience level matches job expectations"
       ++ when (Qle_bool 80 (industry_score_of scores))
               "Strong industry background for this role";
     i_gaps :=
       when (Qlt_bool (skills_score scores) 60)
            "Missing several key technical skills"
       ++ when (Qlt_bool (experience_score scores) 60)
               "Experience level below job requirements"
       ++ when (Qlt_bool (education_score scores) 60)
               "Education requirements not fully met";
     i_recommendations :=
       (match missing_required r (skills (job_requirements job)) with
        | [] => []
        | missing => [add_skills_recommendation missing]
        end)
       ++ when (Qlt_bool (experience_score scores) 70)
               highlight_experience_recommendation |}.

Record match_details := {
  overall_score : Q;
  md_category_scores : category_scores;
  md_strengths : list string;
  md_gaps : list string;
  md_recommendations : list match_recommendation
}.

(** [None] is the ZeroDivisionError the skills score could raise. *)
Definition calculate_match_score (r : resume) (job_analysis : job_info)
  : option match_details :=
  let experience_score :=
    calculate_experience_match r (experience (job_requirements job_analysis)) in
  match calculate_skills_match r (skills (job_requirements job_analysis)) with
  | None => None
  | Some skills_score =>
      let education_score :=
        calculate_education_match r
          (education (job_requirements job_analysis)) in
      let industry_score := calculate_industry_match r job_analysis in
      let scores :=
        {| experience_score := inject_Z experience_score;
           skills_score := skills_score;
           education_score := inject_Z education_score;
           industry_score_of := inject_Z industry_score |} in
      let found := generate_match_insights r job_analysis scores in
      Some {| overall_score :=
                (inject_Z experience_score * (30 # 100)
                 + skills_score * (40 # 100)
                 + inject_Z education_score * (15 # 100)
                 + inject_Z industry_score * (15 # 100))%Q;
              md_category_scores := scores;
              md_strengths := i_strengths found;
              md_gaps := i_gaps found;
              md_recommendations := i_recommendations found |}
  end.

(** *** Benefits and company information *)

Definition benefit_patterns : list pattern :=
  [ {| src := "(?:benefits?|perks?)[:,]?\s*([^.]+)";
       ast := seq [Alt (seq [Lit "benefit"; opt_s]) (seq [Lit "perk"; opt_s]);
                   sep; ws; Grp (plus not_dot)] |};
    {| src := "(?:we\s*offer|offering)[:,]?\s*([^.]+)";
       ast := seq [Alt (seq [Lit "we"; ws; Lit "offer"]) (Lit "offering");
                   sep; ws; Grp (plus not_dot)] |} ].

Definition benefit_word_pattern : pattern :=
  {| src := "(?:health|medical|dental|vision|insurance|401k|pto|vacation)";
     ast := alt (Lit "health")
                [Lit "medical"; Lit "dental"; Lit "vision"; Lit "insurance";
                 Lit "401k"; Lit "pto"; Lit "vacation"] |}.

(** [[b.strip() for b in match.split(',') if b.strip()]] *)
Definition comma_fields (m : string) : list string :=
  map strip (filter (fun b => nonempty (strip b)) (split_on comma m)).

Definition extract_benefits (job_text : string) : list string :=
  let text := lower job_text in
  let benefits :=
    flat_map (fun p => flat_map comma_fields (findall_group (ast p) text))
             benefit_patterns
    ++ flat_map comma_fields (findall (ast benefit_word_pattern) text) in
  take 10 benefits.

Definition size_count_pattern : pattern :=
  {| src := "(\d+[\+]?)\s*(?:employees?|people|team\s*members)";
     ast := seq [Grp (seq [plus digit; Opt (Cls (chr "+"))]); ws;
                 alt (seq [Lit "employee"; opt_s])
                     [Lit "people"; seq [Lit "team"; ws; Lit "members"]]] |}.

Definition size_word_patterns : list pattern :=
  [ {| src := "(?:startup|small\s*business|enterprise|fortune\s*\d+)";
       ast := alt (Lit "startup")
                  [seq [Lit "small"; ws; Lit "business"]; Lit "enterprise";
                   seq [Lit "fortune"; ws; plus digit]] |};
    {| src := "(?:growing|established|leading|global)";
       ast := alt (Lit "growing")
                  [Lit "established"; Lit "leading"; Lit "global"] |} ].

Record company_info := {
  size_indicators : list string;
  company_type : option string;
  location : option string
}.

Definition extract_company_info (job_text : string) : company_info :=
  let text := lower job_text in
  {| size_indicators :=
       findall_group (ast size_count_pattern) text
       ++ flat_map (fun p => findall (ast p) text) size_word_patterns;
     company_type :=
       if any_in ["startup"; "early stage"] text then Some "startup"
       else if any_in ["enterprise"; "fortune"; "established"] text
       then Some "enterprise"
       else Some "mid-size";
     location := None |}.

(** *** extract_keywords

    The NLTK tokeniser and its English stop-word list are outside the
    repository: the function is stated over any tokeniser and any list
    of stop words. *)

(** [token.isalpha()]: at least one character, all of them letters. *)
Fixpoint all_alpha (s : string) : bool :=
  match s with
  | EmptyString => true
  | String c s' => isalpha c && all_alpha s'
  end.

Definition str_isalpha (s : string) : bool := nonempty s && all_alpha s.

(** [Counter.most_common(n)]: the entries by decreasing count, entries
    of equal count in the order they were first counted, cut at [n]. *)
Fixpoint insert_by_count (x : string * nat) (l : Dict.t nat) : Dict.t nat :=
  match l with
  | [] => [x]
  | y :: l' =>
      if (snd x <? snd y)%nat then y :: insert_by_count x l'
      else x :: y :: l'
  end.

Definition most_common (n : nat) (d : Dict.t nat) : Dict.t nat :=
  take n (fold_right insert_by_count [] d).

(** The adjacent pairs of words, joined by a blank. *)
Fixpoint bigrams (words : list string) : list string :=
  match words with
  | w1 :: ((w2 :: _) as rest) => (w1 ++ " " ++ w2)%string :: bigrams rest
  | _ => []
  end.

Record keyword_summary := {
  top_words : Dict.t nat;
  top_phrases : Dict.t nat;
  total_unique_words : nat;
  total_words : nat
}.

Section Keywords.
Variable word_tokenize : string -> list string.
Variable stop_words : list string.

Definition kept_tokens (job_text : string) : list string :=
  filter (fun token => str_isalpha token && negb (mem token stop_words))
         (word_tokenize (lower job_text)).

Definition kept_phrases (job_text : string) : list string :=
  filter (fun phrase =>
            (6 <? String.length phrase)%nat
            && negb (existsb (fun stop => contains stop phrase) stop_words))
         (bigrams (split_ws (lower job_text))).

Definition extract_keywords (job_text : string) : keyword_summary :=
  let word_freq := counter (kept_tokens job_text) in
  let phrase_freq := counter (kept_phrases job_text) in
  {| top_words := most_common 20 word_freq;
     top_phrases := most_common 10 phrase_freq;
     total_unique_words := List.length word_freq;
     total_words := fold_left (fun total entry => total + snd entry)
                              word_freq 0 |}.
End Keywords.

End JobMatcher.

(** * Notions used in the statements *)

(** The result [analyze_keywords] gives for an industry it does not know. *)
Definition general_analysis : keyword_analysis :=
  {| score := 50; found_keywords := []; missing_keywords := [];
     total_found := None; total_possible := None |}.

(** The four sub-scores of the ATS score, as the specification words
    them. *)
Definition present (sections : Dict.t string) (name : string) : Q :=
  if Dict.has name sections then 1%Q else 0%Q.

Definition section_points (sections : Dict.t string) : Q :=
  ((present sections "experience" + present sections "education"
    + present sections "skills") / 3 * 40)%Q.

Definition contact_points (c : contact_info) : Q :=
  (10 * (if truthy (email c) then 1 else 0)
   + 10 * (if truthy (phone c) then 1 else 0))%Q.

Definition format_points (words : nat) : Q :=
  (10 - (if (words <? 200)%nat then 3 else 0)
      - (if (800 <? words)%nat then 2 else 0))%Q.

(** The job posting of the end-to-end scenario. *)
Definition scenario_job_text : string :=
  "Requires 5+ years of experience. Bachelor's degree required. Must have: Python, SQL. Preferred: Docker.".

(** A document reader that, on the given bytes, raises or yields only
    blank text. *)
Definition blank_or_fails (r : option (list string)) : Prop :=
  match r with
  | None => True
  | Some parts => strip (lines_of parts) = EmptyString
  end.

(** [needle] occurs in [hay] as a substring. *)
Definition occurs_in (needle hay : string) : Prop :=
  exists before after, hay = (before ++ needle ++ after)%string.

(** A job skill is matched when it occurs in some resume keyword. *)
Definition matched (keywords : list string) (skill : string) : Prop :=
  exists k, In k keywords /\ occurs_in skill k.

(** [counts P l n]: exactly [n] entries of [l] satisfy [P]. *)
Inductive counts {A : Type} (P : A -> Prop) : list A -> nat -> Prop :=
| counts_nil : counts P [] 0
| counts_yes x l n : P x -> counts P l n -> counts P (x :: l) (S n)
| counts_no x l n : ~ P x -> counts P l n -> counts P (x :: l) n.

(** The points a skill list earns, as the specification words it: the
    match ratio times the allocation, the whole allocation for a list
    without entries. *)
Definition allocation (found total : nat) (points : Q) : Q :=
  match total with
  | O => points
  | S _ => (Qnat found / Qnat total * points)%Q
  end.

(** The bucket function of the experience score. *)
Definition experience_bucket (min_years : Z) : Z :=
  if (min_years =? 0)%Z then 90%Z
  else if (1 <=? min_years)%Z && (min_years <=? 3)%Z then 75%Z
  else 60%Z.

(** The checklist of the recommendation generator, by action tag. *)
Definition checklist : list string :=
  ["keyword_optimization"; "add_contact_info"; "add_sections";
   "add_metrics"; "improve_verbs"].

(** [subseq l m]: [l] is [m] with some entries left out, order kept. *)
Inductive subseq {A : Type} : list A -> list A -> Prop :=
| subseq_nil : subseq [] []
| subseq_take x l m : subseq l m -> subseq (x :: l) (x :: m)
| subseq_skip x l m : subseq l m -> subseq l (x :: m).

(** A line that opens no section. *)
Definition nonheader (line : string) : Prop := header_of line = None.

(** The value of a section is [seg] joined, where [seg] are lines that
    directly follow a header line [h] of that section in [lines]. *)
Definition gathered_under (lines : list string) (k v : string) : Prop :=
  exists a h seg b,
    lines = a ++ h :: seg ++ b
    /\ header_of h = Some k
    /\ Forall nonheader seg
    /\ v = join nl seg.

(** What the segmenter's state says about the lines read so far. *)
Definition seg_inv (read : list string) (st : seg_state) : Prop :=
  (forall k v, Dict.get k (sections st) = Some v -> gathered_under read k v)
  /\ match current_section st with
     | Some k =>
         exists a h,
           read = a ++ h :: section_content st
           /\ header_of h = Some k
           /\ Forall nonheader (section_content st)
     | None => section_content st = []
     end.

(** The reading of the overwrite claim in which any non-header line
    after the last header line of a section counts: the value returned
    for the section is then made of lines that come after that header
    line. *)
Definition overwrite_claim_as_stated (text k : string) : Prop :=
  forall pre h post,
    split_on newline text = pre ++ h :: post ->
    header_of h = Some k ->
    Forall (fun l => header_of l <> Some k) post ->
    Exists (fun l => header_of l = Some k) pre ->
    Exists nonheader post ->
    exists seg,
      (forall l, In l seg -> In l post)
      /\ Dict.get k (extract_sections text) = Some (join nl seg).

Definition twice_opened_text : string :=
  join nl ["Experience"; "foo"; "Experience"; "Skills"; "bar"].

(** The resume of the end-to-end scenario. *)
Definition scenario_resume_text : string :=
  join nl ["John Doe"; "john@x.com"; "(555) 123-4567"; "Experience";
           "Developed software using Python, AWS."; "Education";
           "Bachelor of Science"; "Skills"; "Python, AWS"].

(** A result [x] of a matcher run is a result of its continuation at some
    later position. *)
Definition reaches {R : Type} (k : @cont R) (x : R) : Prop :=
  exists prev s cap, k prev s cap = Some x.

(** Every keyword of an industry, in dictionary order. *)
Definition all_keywords (industry_data : Dict.t (list string)) : list string :=
  flat_map snd industry_data.

(** The keyword, lowercased, occurs in the text. *)
Definition mentions (text keyword : string) : bool :=
  contains (lower keyword) text.

(** Entries by non-increasing count. *)
Definition by_decreasing_count (d : Dict.t nat) : Prop :=
  StronglySorted (fun a b => snd b <= snd a) d.

(** A character that is not white space. *)
Definition visible (c : ascii) : bool := negb (isspace c).

(** A string that does not start with white space. *)
Definition headed (s : string) : Prop :=
  match s with EmptyString => True | String c _ => isspace c = false end.

(** The sum of the counts of a counter. *)
Definition total_count (d : Dict.t nat) : nat :=
  fold_left (fun total entry => total + snd entry) d 0.

(** * Properties *)

(** ** Dictionaries *)

Section DictFacts.
Context {V : Type}.
Implicit Types (d : Dict.t V) (k : string) (v : V).

Lemma get_set_same d k v : Dict.get k (Dict.set k v d) = Some v.
Proof.
  induction d as [|[k' v'] d IH]; simpl.
  - now rewrite String.eqb_refl.
  - destruct (String.eqb k k') eqn:E; simpl; rewrite E; auto.
Qed.

Lemma get_set_other d k k' v :
  k <> k' -> Dict.get k (Dict.set k' v d) = Dict.get k d.
Proof.
  intros Hne. induction d as [|[k0 v0] d IH]; simpl.
  - destruct (String.eqb k k') eqn:E; auto.
    apply String.eqb_eq in E. contradiction.
  - destruct (String.eqb k' k0) eqn:E; simpl.
    + apply String.eqb_eq in E. subst k0.
      destruct (String.eqb k k') eqn:E'; auto.
      apply String.eqb_eq in E'. contradiction.
    + now rewrite IH.
Qed.

Lemma get_set_inv d k k' v w :
  Dict.get k (Dict.set k' v d) = Some w ->
  (k = k' /\ w = v) \/ (k <> k' /\ Dict.get k d = Some w).
Proof.
  intros H. destruct (string_dec k k') as [->|Hne].
  - rewrite get_set_same in H. left. split; congruence.
  - rewrite get_set_other in H by assumption. right. auto.
Qed.
End DictFacts.

(** ** detect_industry: the maximum and its tie-break *)

(** [max_by_score] returns the key of the first entry whose score is the
    largest: every entry before it scores strictly less, every entry
    after it scores at most as much. *)
Lemma max_by_score_first_max :
  forall rest before best after,
    (forall x, In x before -> snd x < snd best) ->
    (forall x, In x after -> snd x <= snd best) ->
    exists l1 s l2,
      before ++ best :: after ++ rest
        = l1 ++ (max_by_score best rest, s) :: l2
      /\ (forall x, In x l1 -> snd x < s)
      /\ (forall x, In x l2 -> snd x <= s).
Proof.
  induction rest as [|x rest IH]; intros before best after Hb Ha; simpl.
  - exists before, (snd best), after. rewrite app_nil_r.
    destruct best; auto.
  - destruct (Nat.ltb_spec (snd best) (snd x)) as [Hlt|Hge].
    + destruct (IH (before ++ best :: after) x []) as (l1 & s & l2 & E & H1 & H2).
      * intros y Hy. apply in_app_or in Hy. destruct Hy as [Hy|[<-|Hy]].
        -- specialize (Hb _ Hy). lia.
        -- assumption.
        -- specialize (Ha _ Hy). lia.
      * intros y [].
      * exists l1, s, l2. split; [|auto].
        rewrite <- E. rewrite <- app_assoc. reflexivity.
    + destruct (IH before best (after ++ [x])) as (l1 & s & l2 & E & H1 & H2).
      * assumption.
      * intros y Hy. apply in_app_or in Hy. destruct Hy as [Hy|[<-|[]]]; auto.
      * exists l1, s, l2. split; [|auto].
        rewrite <- E. rewrite <- app_assoc. reflexivity.
Qed.

(** On a database with at least one industry, [detect_industry] returns
    the first industry, in declaration order, among those of maximal
    score. *)
Lemma detect_industry_argmax :
  forall db text,
    db <> [] ->
    exists l1 s l2,
      industry_scores db text = l1 ++ (detect_industry db text, s) :: l2
      /\ (forall x, In x l1 -> snd x < s)
      /\ (forall x, In x l2 -> snd x <= s).
Proof.
  intros db text Hne. unfold detect_industry.
  destruct (industry_scores db text) as [|first rest] eqn:E.
  - destruct db; [contradiction|discriminate].
  - destruct (max_by_score_first_max rest [] first [])
      as (l1 & s & l2 & E' & H1 & H2).
    + intros x [].
    + intros x [].
    + exists l1, s, l2. auto.
Qed.

(** With the four industries declared, the fallback is never taken. *)
Lemma detect_industry_never_general :
  forall text, detect_industry industry_keywords text <> "general".
Proof.
  intros text.
  destruct (detect_industry_argmax industry_keywords text)
    as (l1 & s & l2 & E & _); [discriminate|].
  intros Hg. rewrite Hg in E.
  assert (In "general" (Dict.keys (industry_scores industry_keywords text))) as Hin.
  { rewrite E. unfold Dict.keys. rewrite map_app. apply in_or_app.
    right. left. reflexivity. }
  unfold Dict.keys, industry_scores in Hin. rewrite map_map in Hin.
  simpl in Hin. intuition discriminate.
Qed.

(** C1. On the text [hello], in which no keyword of any industry occurs,
    every industry scores 0 and [detect_industry] answers [technology],
    the first industry declared, where the catch-all [general] is
    expected. *)
Theorem detect_industry_all_zero_is_technology :
  industry_scores industry_keywords "hello"
    = [("technology", 0); ("marketing", 0); ("finance", 0); ("healthcare", 0)]
  /\ detect_industry industry_keywords "hello" = "technology".
Proof. split; vm_compute; reflexivity. Qed.

(** Whatever the text, when all four industries score 0 the answer is
    [technology]. *)
Lemma detect_industry_zero_scores :
  forall text,
    (forall x, In x (industry_scores industry_keywords text) -> snd x = 0) ->
    detect_industry industry_keywords text = "technology".
Proof.
  intros text H. unfold detect_industry.
  unfold industry_scores, industry_keywords in *.
  cbn [map fst snd] in *.
  match goal with
  | |- max_by_score (_, ?a) [(_, ?b); (_, ?c); (_, ?d)] = _ =>
      assert (a = 0) as Ea by (apply (H ("technology", a)); simpl; auto);
      assert (b = 0) as Eb by (apply (H ("marketing", b)); simpl; auto);
      assert (c = 0) as Ec by (apply (H ("finance", c)); simpl; auto);
      assert (d = 0) as Ed by (apply (H ("healthcare", d)); simpl; auto 6);
      rewrite Ea, Eb, Ec, Ed
  end.
  reflexivity.
Qed.

(** ** analyze_keywords *)

Lemma Qnat_pos_nonzero : forall n, 0 < n -> Qeq_bool (Qnat n) 0 = false.
Proof.
  intros n Hn. unfold Qeq_bool, Qnat. simpl.
  apply Z.eqb_neq. lia.
Qed.

Lemma sort_keywords_empty :
  forall text (cats : Dict.t (list string)),
    (forall cat, In cat cats -> snd cat = []) ->
    sort_keywords text cats = ([], [], 0).
Proof.
  intros text cats Hempty.
  unfold sort_keywords. generalize (@nil string, @nil string, 0).
  induction cats as [|cat cats IH]; intros acc; simpl; [reflexivity|].
  rewrite (Hempty cat) by (left; reflexivity). simpl.
  apply IH. intros c Hc. apply Hempty. right. assumption.
Qed.

(** C8. For an industry the keyword database does not list, [general]
    among them, [analyze_keywords] returns the score 50 with no found and
    no missing keyword; and on every database, text and industry it
    returns a result, the division being guarded: an industry listed with
    no keyword at all scores 0. *)
Theorem analyze_keywords_general_and_guarded :
  forall (db : keyword_db) (text : string),
    (forall industry,
        Dict.get industry db = None ->
        analyze_keywords db text industry = Some general_analysis)
    /\ analyze_keywords industry_keywords text "general" = Some general_analysis
    /\ (forall industry, exists ka, analyze_keywords db text industry = Some ka)
    /\ (forall industry cats,
          Dict.get industry db = Some cats ->
          (forall cat, In cat cats -> snd cat = []) ->
          exists ka, analyze_keywords db text industry = Some ka
                     /\ score ka = 0%Q
                     /\ found_keywords ka = []
                     /\ missing_keywords ka = []).
Proof.
  intros db text. split; [|split; [|split]].
  - intros industry H. unfold analyze_keywords. now rewrite H.
  - reflexivity.
  - intros industry. unfold analyze_keywords.
    destruct (Dict.get industry db) as [cats|]; [|eauto].
    destruct (sort_keywords text cats) as [[found missing] total].
    destruct (Nat.ltb_spec 0 total) as [Hpos|Hz]; [|eauto].
    unfold py_div. rewrite (Qnat_pos_nonzero _ Hpos). simpl. eauto.
  - intros industry cats Hget Hempty. unfold analyze_keywords. rewrite Hget.
    rewrite (sort_keywords_empty text cats Hempty).
    simpl. eexists. repeat split.
Qed.

(** An industry that is listed nowhere and one that is listed without a
    keyword, on a small database. *)
Lemma analyze_keywords_general_and_guarded_witness :
  analyze_keywords [("sales", [("skills", [])])] "crm" "general"
    = Some general_analysis
  /\ exists ka, analyze_keywords [("sales", [("skills", [])])] "crm" "sales"
                  = Some ka /\ score ka = 0%Q.
Proof.
  destruct (analyze_keywords_general_and_guarded
              [("sales", [("skills", [])])] "crm") as (H1 & _ & _ & H4).
  split.
  - apply H1. reflexivity.
  - destruct (H4 "sales" [("skills", [])]) as (ka & E & Hs & _).
    + reflexivity.
    + intros cat [<-|[]]. reflexivity.
    + exists ka. split; assumption.
Defined.

(** ** calculate_ats_score *)

Lemma py_min_cases (a b : Q) :
  ((a <= b)%Q /\ py_min a b = a) \/ ((b < a)%Q /\ py_min a b = b).
Proof.
  unfold py_min. destruct (Qle_bool a b) eqn:E.
  - left. split; [now apply Qle_bool_iff|reflexivity].
  - right. split; [|reflexivity].
    apply Qnot_le_lt. intro H. apply Qle_bool_iff in H. congruence.
Qed.

Lemma py_min_Qmin (a b : Q) : (py_min a b == Qmin a b)%Q.
Proof.
  destruct (py_min_cases a b) as [[H E]|[H E]]; rewrite E; symmetry.
  - now apply Q.min_l.
  - apply Q.min_r. now apply Qlt_le_weak.
Qed.

Lemma section_score_points (s : Dict.t string) :
  (section_score s == section_points s)%Q
  /\ (0 <= section_points s)%Q /\ (section_points s <= 40)%Q.
Proof.
  unfold section_score, section_points, present, required_sections. simpl.
  destruct (Dict.has "experience" s), (Dict.has "education" s),
    (Dict.has "skills" s); repeat split; vm_compute; congruence.
Qed.

Lemma contact_score_points (c : contact_info) :
  (contact_score c == contact_points c)%Q
  /\ (0 <= contact_points c)%Q /\ (contact_points c <= 20)%Q.
Proof.
  unfold contact_points, contact_score.
  destruct (truthy (email c)), (truthy (phone c));
    repeat split; vm_compute; congruence.
Qed.

Lemma format_score_points (text : string) :
  format_score text = format_points (word_count text)
  /\ (7 <= format_points (word_count text))%Q
  /\ (format_points (word_count text) <= 10)%Q.
Proof.
  unfold format_points, format_score.
  destruct (Nat.ltb_spec (word_count text) 200),
    (Nat.ltb_spec 800 (word_count text));
    try lia; repeat split; vm_compute; congruence.
Qed.

(** The sum and its range, for a keyword score in [0,100]. *)
Lemma ats_score_sum_in_range :
  forall (text : string) (sections : Dict.t string) (c : contact_info)
         (ka : keyword_analysis),
    (0 <= score ka)%Q -> (score ka <= 100)%Q ->
    (calculate_ats_score text sections c ka
       == section_points sections + contact_points c
          + score ka / 100 * 30 + format_points (word_count text))%Q
    /\ (0 <= calculate_ats_score text sections c ka)%Q
    /\ (calculate_ats_score text sections c ka <= 100)%Q.
Proof.
  intros text sections c ka H0 H100. unfold calculate_ats_score.
  destruct (section_score_points sections) as (Hs & Hs0 & Hs1).
  destruct (contact_score_points c) as (Hc & Hc0 & Hc1).
  destruct (format_score_points text) as (Hf & Hf0 & Hf1).
  rewrite Hf.
  generalize dependent (format_points (word_count text)).
  generalize dependent (section_points sections).
  generalize dependent (contact_points c).
  generalize dependent (section_score sections).
  generalize dependent (contact_score c).
  generalize dependent (score ka).
  intros k H0 H100 cs ss cp Hc Hc0 Hc1 sp Hs Hs0 Hs1 f Hf0 Hf1.
  assert (Hk : (k / 100 * 30 == (3 # 10) * k)%Q) by field.
  destruct (py_min_cases 100 (0 + ss + cs + k / 100 * 30 + f))
    as [[Hle E]|[Hlt E]]; rewrite E.
  - rewrite Hs, Hc, Hk in Hle. rewrite Hk. repeat split; lra.
  - rewrite Hs, Hc, Hk in Hlt. rewrite Hs, Hc, Hk. repeat split; lra.
Qed.

(** C2. For every text, sections map, contact map and keyword analysis
    (whose score, as the data model has it, lies in [0,100]),
    [calculate_ats_score] is the sum of the section score (present ones
    of experience, education, skills over 3, times 40), the contact score
    (10 for the email, 10 for the phone), the keyword score (score/100*30,
    that is 0.30 of it) and the format score (10, less 3 under 200 words,
    less 2 over 800); it lies in [0,100]; and for the empty text, whose
    format score is 7, it is computed the same way. *)
Theorem calculate_ats_score_weighted_sum :
  forall (text : string) (sections : Dict.t string) (c : contact_info)
         (ka : keyword_analysis),
    (0 <= score ka)%Q -> (score ka <= 100)%Q ->
    (calculate_ats_score text sections c ka
       == section_points sections + contact_points c
          + score ka / 100 * 30 + format_points (word_count text))%Q
    /\ (score ka / 100 * 30 == (30 # 100) * score ka)%Q
    /\ (0 <= calculate_ats_score text sections c ka)%Q
    /\ (calculate_ats_score text sections c ka <= 100)%Q
    /\ (calculate_ats_score EmptyString sections c ka
         == section_points sections + contact_points c
            + score ka / 100 * 30 + 7)%Q.
Proof.
  intros text sections c ka H0 H100.
  destruct (ats_score_sum_in_range text sections c ka H0 H100) as (E & L & U).
  destruct (ats_score_sum_in_range EmptyString sections c ka H0 H100)
    as (E' & _ & _).
  split; [exact E|]. split; [field|]. split; [exact L|]. split; [exact U|].
  rewrite E'. vm_compute (format_points (word_count "")). reflexivity.
Qed.

(** A resume of two words with the three sections, an email, no phone
    and a keyword score of 50: 40 + 10 + 15 + 7. *)
Lemma calculate_ats_score_weighted_sum_witness :
  (calculate_ats_score "Jane Roe"
     [("experience", "x"); ("education", "y"); ("skills", "z")]
     {| email := Some "jane@x.org"; phone := None;
        linkedin := None; github := None |}
     general_analysis <= 100)%Q.
Proof.
  apply (calculate_ats_score_weighted_sum "Jane Roe"
           [("experience", "x"); ("education", "y"); ("skills", "z")]
           {| email := Some "jane@x.org"; phone := None;
              linkedin := None; github := None |}
           general_analysis); vm_compute; congruence.
Defined.

(** The score [analyze_keywords] returns is within the range the ATS
    score expects. *)
Lemma Qnat_nonneg (n : nat) : (0 <= Qnat n)%Q.
Proof. unfold Qle, Qnat. simpl. lia. Qed.

Lemma analyze_keywords_score_range :
  forall db text industry ka,
    analyze_keywords db text industry = Some ka ->
    (0 <= score ka)%Q /\ (score ka <= 100)%Q.
Proof.
  intros db text industry ka. unfold analyze_keywords.
  destruct (Dict.get industry db) as [cats|].
  - destruct (sort_keywords text cats) as [[found missing] total].
    assert (forall ks, (0 <= ks)%Q ->
              (0 <= py_min 100 ks)%Q /\ (py_min 100 ks <= 100)%Q) as Hmin.
    { intros ks Hks.
      destruct (py_min_cases 100 ks) as [[H E]|[H E]]; rewrite E; split; lra. }
    destruct (Nat.ltb_spec 0 total) as [Hpos|Hz].
    + unfold py_div. rewrite (Qnat_pos_nonzero _ Hpos). simpl.
      intros [= <-]. simpl. apply Hmin.
      apply Qmult_le_0_compat; [|lra].
      apply Qmult_le_0_compat; [apply Qnat_nonneg|].
      apply Qinv_le_0_compat. apply Qnat_nonneg.
    + intros [= <-]. simpl. apply Hmin. lra.
  - intros [= <-]. simpl. split; lra.
Qed.

(** In the pipeline the keyword analysis comes from [analyze_keywords],
    so every analysis [analyze_resume_content] returns carries an ATS
    score in [0,100], whatever the text and the libraries do. *)
Lemma analyze_resume_content_ats_range :
  forall db sent_tokenize flesch_reading_ease text a,
    analyze_resume_content db sent_tokenize flesch_reading_ease text = Some a ->
    (0 <= a_ats_score a)%Q /\ (a_ats_score a <= 100)%Q.
Proof.
  intros db sent flesch text a. unfold analyze_resume_content.
  destruct (sent text) as [sentences|]; [|discriminate].
  destruct (flesch text) as [readability|]; [|discriminate].
  destruct (analyze_keywords db (lower text) (detect_industry db (lower text)))
    as [ka|] eqn:Eka; [|discriminate].
  intros [= <-]. simpl.
  destruct (analyze_keywords_score_range _ _ _ _ Eka) as [H0 H100].
  destruct (ats_score_sum_in_range text (extract_sections text)
              (extract_contact_info text) ka H0 H100) as (_ & L & U).
  split; assumption.
Qed.

(** ** parse_job_description *)

(** C3. On the posting of the scenario, [parse_job_description] finds a
    minimum of 5 years, a required degree, the required skills python
    and sql and the preferred skill docker. *)
Theorem parse_job_description_scenario :
  let job := JobMatcher.parse_job_description scenario_job_text in
  let req := JobMatcher.job_requirements job in
  JobMatcher.min_years (JobMatcher.experience req) = 5%Z
  /\ JobMatcher.degree_required (JobMatcher.education req) = true
  /\ In "python" (JobMatcher.required_skills (JobMatcher.skills req))
  /\ In "sql" (JobMatcher.required_skills (JobMatcher.skills req))
  /\ In "docker" (JobMatcher.preferred_skills (JobMatcher.skills req)).
Proof.
  assert (JobMatcher.job_requirements
            (JobMatcher.parse_job_description scenario_job_text)
          = {| JobMatcher.experience :=
                 {| JobMatcher.min_years := 5;
                    JobMatcher.max_years := None;
                    JobMatcher.specific_experience := [];
                    JobMatcher.level := "mid" |};
               JobMatcher.education :=
                 {| JobMatcher.degree_required := true;
                    JobMatcher.degree_level := Some "bachelor";
                    JobMatcher.preferred_fields := [];
                    JobMatcher.certifications := [] |};
               JobMatcher.skills :=
                 {| JobMatcher.required_skills := ["python"; "sql"];
                    JobMatcher.preferred_skills := ["docker"];
                    JobMatcher.categorized_skills :=
                      [("programming_languages", ["python"; "sql"; "docker"]);
                       ("web_technologies", []); ("databases", []);
                       ("cloud_platforms", ["docker"]);
                       ("tools_frameworks", ["docker"]);
                       ("data_science", []); ("soft_skills", [])];
                    JobMatcher.skill_frequency :=
                      [("python", 1); ("sql", 1); ("docker", 1)] |} |}) as E
    by (vm_compute; reflexivity).
  cbv zeta. rewrite E. simpl. intuition.
Qed.

(** ** The upload fallback *)

(** C4. The upload handler's analysis of an empty byte input is the
    parse fallback, whatever the file name: an ATS score of 60, hence at
    most 60, and one weakness.  The result is a value in every case, no
    exception leaves the handler.  The document readers are assumed to
    raise or to find only blank text in an empty file, and the codec to
    decode no bytes to blank text. *)
Theorem upload_of_empty_bytes_falls_back :
  forall (db : keyword_db)
         (pdf_pages docx_paragraphs : bytes -> option (list string))
         (decode_utf8_ignore : bytes -> string)
         (sent_tokenize : string -> option (list string))
         (flesch_reading_ease : string -> option Q)
         (filename title : string),
    blank_or_fails (pdf_pages []) ->
    blank_or_fails (docx_paragraphs []) ->
    strip (decode_utf8_ignore []) = EmptyString ->
    let u := AdvancedMain.analyze_resume_content
               db pdf_pages docx_paragraphs decode_utf8_ignore
               sent_tokenize flesch_reading_ease [] filename title in
    u = AdvancedMain.parse_fallback
    /\ (u_ats_score u <= 60)%Q
    /\ s_weaknesses (u_analysis u) <> [].
Proof.
  intros db pdf docx decode sent flesch filename title Hpdf Hdocx Hdec u.
  assert (u = AdvancedMain.parse_fallback) as ->.
  { subst u. unfold AdvancedMain.analyze_resume_content, parse_resume.
    assert (forall text, strip text = EmptyString ->
              negb (nonempty (strip text)) = true) as Hblank
      by (intros text ->; reflexivity).
    destruct (endswith ".pdf" (lower filename)).
    - unfold extract_text_from_pdf, blank_or_fails in *.
      destruct (pdf []) as [pages|].
      + now rewrite (Hblank _ Hpdf).
      + reflexivity.
    - destruct (endswith ".docx" (lower filename)
                || endswith ".doc" (lower filename)).
      + unfold extract_text_from_docx, blank_or_fails in *.
        destruct (docx []) as [paragraphs|].
        * now rewrite (Hblank _ Hdocx).
        * reflexivity.
      + now rewrite (Hblank _ Hdec). }
  split; [reflexivity|]. split.
  - vm_compute. discriminate.
  - discriminate.
Qed.

(** An empty upload named [cv.txt], with readers that raise on every
    input and a codec that reads bytes as characters. *)
Lemma upload_of_empty_bytes_falls_back_witness :
  u_ats_score
    (AdvancedMain.analyze_resume_content
       industry_keywords (fun _ => None) (fun _ => None)
       string_of_list_byte (fun t => Some [t]) (fun _ => Some 50%Q)
       [] "cv.txt" "My resume") = 60%Q.
Proof.
  destruct (upload_of_empty_bytes_falls_back
              industry_keywords (fun _ => None) (fun _ => None)
              string_of_list_byte (fun t => Some [t]) (fun _ => Some 50%Q)
              "cv.txt" "My resume") as (E & _ & _).
  - exact I.
  - exact I.
  - reflexivity.
  - rewrite E. reflexivity.
Defined.

(** ** calculate_experience_match *)

Lemma int_digits_nonneg :
  forall s acc y, (0 <= acc)%Z -> JobMatcher.int_digits s acc = Some y ->
                  (0 <= y)%Z.
Proof.
  induction s as [|c s IH]; intros acc y Hacc; cbn [JobMatcher.int_digits].
  - intros [= <-]. assumption.
  - destruct (isdigit c); [|discriminate].
    apply IH. lia.
Qed.

Lemma years_found_nonneg :
  forall text, Forall (fun y => 0 <= y)%Z (JobMatcher.years_found text).
Proof.
  intros text. unfold JobMatcher.years_found.
  apply Forall_flat_map. apply Forall_forall. intros p _.
  unfold JobMatcher.years_in.
  apply Forall_flat_map. apply Forall_forall. intros m _.
  destruct (JobMatcher.int_of m) as [y|] eqn:E; constructor; [|constructor].
  unfold JobMatcher.int_of in E. destruct m; [discriminate|].
  eapply int_digits_nonneg; [|exact E]. lia.
Qed.

(** The minimum the parser reports is never negative. *)
Lemma extract_experience_min_years_nonneg :
  forall job_text,
    (0 <= JobMatcher.min_years
            (JobMatcher.extract_experience_requirements job_text))%Z.
Proof.
  intros job_text. unfold JobMatcher.extract_experience_requirements. simpl.
  pose proof (years_found_nonneg (lower job_text)) as H.
  destruct (JobMatcher.years_found (lower job_text)) as [|y ys]; [lia|].
  inversion H as [|? ? Hy Hys]; subst. clear H.
  unfold JobMatcher.list_min. revert y Hy.
  induction Hys as [|z ys Hz Hys IH]; intros y Hy; simpl; [assumption|].
  apply IH. lia.
Qed.

(** C6. The experience score is the same for any two resumes: it reads
    the job's [min_years] only, and for a minimum that is not negative
    it is 90 at 0, 75 from 1 to 3 and 60 above. *)
Theorem calculate_experience_match_ignores_resume :
  forall (r1 r2 : JobMatcher.resume) (j : JobMatcher.experience_info),
    JobMatcher.calculate_experience_match r1 j
      = JobMatcher.calculate_experience_match r2 j
    /\ ((0 <= JobMatcher.min_years j)%Z ->
        JobMatcher.calculate_experience_match r1 j
          = experience_bucket (JobMatcher.min_years j)).
Proof.
  intros r1 r2 j. split; [reflexivity|].
  intros Hpos. unfold JobMatcher.calculate_experience_match, experience_bucket.
  destruct (Z.eqb_spec (JobMatcher.min_years j) 0); [reflexivity|].
  destruct (Z.leb_spec (JobMatcher.min_years j) 3),
    (Z.leb_spec 1 (JobMatcher.min_years j)); simpl; try reflexivity; lia.
Qed.

(** Two different resumes against the requirements read off the
    scenario posting, whose minimum is 5 years. *)
Lemma calculate_experience_match_ignores_resume_witness :
  JobMatcher.calculate_experience_match
    {| JobMatcher.detected_industry := Some "finance";
       JobMatcher.resume_keyword_analysis := None |}
    (JobMatcher.extract_experience_requirements scenario_job_text)
  = 60%Z.
Proof.
  destruct (calculate_experience_match_ignores_resume
              {| JobMatcher.detected_industry := Some "finance";
                 JobMatcher.resume_keyword_analysis := None |}
              {| JobMatcher.detected_industry := None;
                 JobMatcher.resume_keyword_analysis :=
                   Some {| JobMatcher.k_found_keywords := Some ["python"] |} |}
              (JobMatcher.extract_experience_requirements scenario_job_text))
    as [_ H].
  rewrite H.
  - vm_compute. reflexivity.
  - vm_compute. discriminate.
Defined.

(** ** calculate_skills_match *)

Lemma startswith_iff :
  forall p s, startswith p s = true <-> exists after, s = (p ++ after)%string.
Proof.
  induction p as [|a p IH]; intros s; simpl.
  - split; [intros _; exists s; reflexivity|reflexivity].
  - destruct s as [|b s].
    + split; [discriminate|intros [after H]; discriminate].
    + rewrite andb_true_iff, IH. split.
      * intros [Hab [after ->]]. apply Ascii.eqb_eq in Hab. subst b.
        exists after. reflexivity.
      * intros [after [= -> ->]]. split; [apply Ascii.eqb_refl|eauto].
Qed.

(** [needle in hay] is the substring relation. *)
Lemma contains_iff :
  forall needle hay, contains needle hay = true <-> occurs_in needle hay.
Proof.
  intros needle hay. unfold occurs_in.
  induction hay as [|c hay IH]; simpl; rewrite orb_true_iff.
  - split.
    + intros [H|H]; [|discriminate].
      apply startswith_iff in H. destruct H as [after H].
      exists EmptyString, after. exact H.
    + intros (before & after & H). left. apply startswith_iff.
      destruct before; [eauto|discriminate].
  - rewrite IH. split.
    + intros [H|(before & after & ->)].
      * apply startswith_iff in H. destruct H as [after H].
        exists EmptyString, after. exact H.
      * exists (String c before), after. reflexivity.
    + intros (before & after & H). destruct before as [|b before].
      * left. apply startswith_iff. exists after. exact H.
      * right. simpl in H. injection H as _ H. eauto.
Qed.

Lemma matched_iff :
  forall keywords skill,
    existsb (fun k => contains skill k) keywords = true
    <-> matched keywords skill.
Proof.
  intros keywords skill. unfold matched. rewrite existsb_exists.
  split; intros (k & Hin & H); exists k; split; auto; now apply contains_iff.
Qed.

(** [matches] counts the skills that occur in some keyword. *)
Lemma matches_counts :
  forall keywords skills,
    counts (matched keywords) skills (JobMatcher.matches skills keywords).
Proof.
  intros keywords skills. unfold JobMatcher.matches.
  induction skills as [|skill skills IH]; simpl; [constructor|].
  destruct (existsb (fun k => contains skill k) keywords) eqn:E; simpl.
  - constructor; [now apply matched_iff|assumption].
  - constructor; [|assumption].
    intros H. apply matched_iff in H. congruence.
Qed.

Lemma points_for_allocation :
  forall skills keywords points,
    JobMatcher.points_for skills keywords points
    = Some (allocation (JobMatcher.matches skills keywords)
                       (List.length skills) points).
Proof.
  intros skills keywords points. unfold JobMatcher.points_for, allocation.
  destruct skills as [|skill skills]; [reflexivity|].
  unfold py_div. rewrite Qnat_pos_nonzero by (simpl; lia). reflexivity.
Qed.

(** C5. [calculate_skills_match] always returns a score, and the score is
    [min(100, r*80 + p*20)], where [r] and [p] are the shares of the
    required and of the preferred job skills that occur as a substring
    of some resume keyword (skills and keywords compared in lower case)
    and a list without entries earns its whole allocation; with both
    lists empty the score is exactly 100. *)
Theorem calculate_skills_match_formula :
  forall (r : JobMatcher.resume) (j : JobMatcher.skills_info),
    let keywords := map lower (JobMatcher.resume_keywords r) in
    let required := map lower (JobMatcher.required_skills j) in
    let preferred := map lower (JobMatcher.preferred_skills j) in
    (exists v nr np,
        JobMatcher.calculate_skills_match r j = Some v
        /\ counts (matched keywords) required nr
        /\ counts (matched keywords) preferred np
        /\ (v == Qmin 100 (allocation nr (List.length required) 80
                           + allocation np (List.length preferred) 20))%Q)
    /\ (JobMatcher.required_skills j = [] ->
        JobMatcher.preferred_skills j = [] ->
        JobMatcher.calculate_skills_match r j = Some 100%Q).
Proof.
  intros r j keywords required preferred. split.
  - unfold JobMatcher.calculate_skills_match.
    fold keywords. fold required. fold preferred.
    rewrite !points_for_allocation.
    eexists. exists (JobMatcher.matches required keywords).
    exists (JobMatcher.matches preferred keywords).
    split; [reflexivity|].
    split; [apply matches_counts|].
    split; [apply matches_counts|].
    apply py_min_Qmin.
  - intros Hreq Hpref. unfold JobMatcher.calculate_skills_match.
    rewrite Hreq, Hpref. reflexivity.
Qed.

(** A job that lists no skill at all, and the scenario posting against a
    resume whose keywords hold python alone. *)
Lemma calculate_skills_match_formula_witness :
  JobMatcher.calculate_skills_match
    {| JobMatcher.detected_industry := None;
       JobMatcher.resume_keyword_analysis := None |}
    (JobMatcher.extract_skill_requirements "We are hiring")
  = Some 100%Q.
Proof.
  apply (calculate_skills_match_formula
           {| JobMatcher.detected_industry := None;
              JobMatcher.resume_keyword_analysis := None |}
           (JobMatcher.extract_skill_requirements "We are hiring"));
    vm_compute; reflexivity.
Defined.

(** ** generate_recommendations *)

Lemma Qlt_bool_true (a b : Q) : (a < b)%Q -> Qlt_bool a b = true.
Proof.
  intros H. unfold Qlt_bool. destruct (Qle_bool b a) eqn:E; [|reflexivity].
  apply Qle_bool_iff in E. exfalso. apply (Qlt_not_le _ _ H E).
Qed.

(** C7. The recommendations come out in the order of the checklist
    (keywords, contact, structure, metrics, verbs), each entry at most
    once and nothing re-ordered: the action tags of the result are the
    checklist with some entries left out.  With a keyword score under 60
    and the email or the phone missing, the result starts with the
    keyword recommendation followed by the contact recommendation. *)
Theorem generate_recommendations_checklist_order :
  forall (db : keyword_db) (text : string) (sections : Dict.t string)
         (c : contact_info) (ka : keyword_analysis) (industry : string)
         (ats_score : Q),
    let out :=
      generate_recommendations db text sections c ka industry ats_score in
    subseq (map r_action out) checklist
    /\ NoDup (map r_action out)
    /\ ((score ka < 60)%Q ->
        truthy (email c) = false \/ truthy (phone c) = false ->
        exists rest,
          out = keyword_recommendation ka :: contact_recommendation c :: rest
          /\ r_type (keyword_recommendation ka) = "keywords"
          /\ r_type (contact_recommendation c) = "contact").
Proof.
  intros db text sections c ka industry ats_score out. subst out.
  unfold generate_recommendations, checklist.
  split; [|split].
  - destruct (needs_keywords ka), (needs_contact c),
      (needs_sections sections), (needs_metrics text), (needs_verbs text);
      simpl; repeat constructor.
  - destruct (needs_keywords ka), (needs_contact c),
      (needs_sections sections), (needs_metrics text), (needs_verbs text);
      simpl; repeat constructor; simpl; intuition discriminate.
  - intros Hscore Hcontact.
    assert (needs_keywords ka = true) as ->
        by (apply Qlt_bool_true; assumption).
    assert (needs_contact c = true) as ->.
    { unfold needs_contact. destruct Hcontact as [-> | ->]; simpl;
        [reflexivity|apply orb_true_r]. }
    destruct (needs_sections sections), (needs_metrics text),
      (needs_verbs text); simpl; eexists;
      (split; [reflexivity|split; reflexivity]).
Qed.

(** A short resume without contact details and a keyword score of 50. *)
Lemma generate_recommendations_checklist_order_witness :
  exists rest,
    generate_recommendations industry_keywords "Worked on reports" []
      {| email := None; phone := None; linkedin := None; github := None |}
      general_analysis "general" 22
    = keyword_recommendation general_analysis
      :: contact_recommendation
           {| email := None; phone := None; linkedin := None; github := None |}
      :: rest.
Proof.
  destruct (generate_recommendations_checklist_order
              industry_keywords "Worked on reports" []
              {| email := None; phone := None;
                 linkedin := None; github := None |}
              general_analysis "general" 22) as (_ & _ & H).
  destruct H as (rest & E & _).
  - vm_compute. reflexivity.
  - left. reflexivity.
  - exists rest. exact E.
Defined.

(** ** extract_sections *)

Lemma first_header_keyword :
  forall headers line_lower k,
    first_header headers line_lower = Some k ->
    exists hs kw,
      In (k, hs) headers /\ In kw hs /\ contains kw line_lower = true.
Proof.
  induction headers as [|[key hs] headers IH]; intros line_lower k; simpl.
  - discriminate.
  - destruct (any_in hs line_lower) eqn:E.
    + intros [= <-]. unfold any_in in E. apply existsb_exists in E.
      destruct E as (kw & Hin & Hkw). exists hs, kw. auto.
    + intros H. destruct (IH _ _ H) as (hs' & kw & Hin & Hkw & Hc).
      exists hs', kw. auto.
Qed.

Lemma header_of_keyword :
  forall line k,
    header_of line = Some k ->
    exists hs kw,
      In (k, hs) section_headers /\ In kw hs
      /\ contains kw (strip (lower line)) = true.
Proof. intros line k. apply first_header_keyword. Qed.

(** A section key is never the empty string, so an open section is
    always truthy. *)
Lemma header_of_truthy :
  forall line k, header_of line = Some k -> nonempty k = true.
Proof.
  intros line k H. destruct (header_of_keyword _ _ H) as (hs & kw & Hin & _).
  simpl in Hin.
  repeat (destruct Hin as [[= <- <-]|Hin]; [reflexivity|]).
  contradiction.
Qed.

Lemma gathered_under_more :
  forall read k v more,
    gathered_under read k v -> gathered_under (read ++ more) k v.
Proof.
  intros read k v more (a & h & seg & b & -> & Hh & Hseg & ->).
  exists a, h, seg, (b ++ more). split; [|auto].
  rewrite <- app_assoc. simpl. rewrite <- app_assoc. reflexivity.
Qed.

(** What a flush writes was gathered under a header of the open section. *)
Lemma flush_gathered :
  forall read st more,
    seg_inv read st ->
    forall k v, Dict.get k (flush st) = Some v ->
                gathered_under (read ++ more) k v.
Proof.
  intros read st more [Hsec Hcur] k v. unfold flush.
  destruct (current_section st) as [cur|] eqn:Ec;
    [|intros H; apply gathered_under_more; auto].
  destruct (section_content st) as [|l ls] eqn:Econ;
    [intros H; apply gathered_under_more; auto|].
  destruct (nonempty cur);
    [|intros H; apply gathered_under_more; auto].
  intros H. apply get_set_inv in H. destruct H as [[-> ->]|[_ H]].
  - destruct Hcur as (a & h & -> & Hh & Hall).
    exists a, h, (l :: ls), more. split; [|auto].
    rewrite <- app_assoc. reflexivity.
  - apply gathered_under_more; auto.
Qed.

Lemma seg_step_inv :
  forall read st line,
    seg_inv read st -> seg_inv (read ++ [line]) (seg_step st line).
Proof.
  intros read st line Hinv. unfold seg_step.
  destruct (header_of line) as [key|] eqn:Eh.
  - split; simpl.
    + apply flush_gathered. assumption.
    + exists read, line. auto.
  - destruct Hinv as [Hsec Hcur].
    destruct (current_section st) as [cur|] eqn:Ec; simpl.
    + destruct Hcur as (a & h & -> & Hh & Hall).
      rewrite (header_of_truthy _ _ Hh). split; simpl.
      * intros k v H. apply gathered_under_more. auto.
      * exists a, h. split; [|split; [assumption|]].
        -- rewrite <- app_assoc. reflexivity.
        -- apply Forall_app. split; [assumption|]. constructor; auto.
    + split.
      * intros k v H. apply gathered_under_more. auto.
      * now rewrite Ec.
Qed.

Lemma seg_run_inv :
  forall lines read st,
    seg_inv read st ->
    seg_inv (read ++ lines) (fold_left seg_step lines st).
Proof.
  induction lines as [|line lines IH]; intros read st Hinv; simpl.
  - now rewrite app_nil_r.
  - replace (read ++ line :: lines) with ((read ++ [line]) ++ lines)
      by (rewrite <- app_assoc; reflexivity).
    apply IH. apply seg_step_inv. assumption.
Qed.

Lemma seg_init_inv : seg_inv [] seg_init.
Proof. split; simpl; [discriminate|reflexivity]. Qed.

(** Every value of the result was gathered under a header line of its
    section. *)
Lemma extract_sections_lines_gathered :
  forall lines k v,
    Dict.get k (extract_sections_lines lines) = Some v ->
    gathered_under lines k v.
Proof.
  intros lines k v H. unfold extract_sections_lines in H.
  pose proof (seg_run_inv lines [] seg_init seg_init_inv) as Hinv.
  simpl in Hinv.
  rewrite <- (app_nil_r lines).
  eapply flush_gathered; eassumption.
Qed.

(** Lines read while no section is open leave the state as it is. *)
Lemma seg_run_before_first_header :
  forall pre, Forall nonheader pre -> fold_left seg_step pre seg_init = seg_init.
Proof.
  induction 1 as [|line pre Hline Hpre IH]; simpl; [reflexivity|].
  unfold seg_step at 2. rewrite Hline. simpl. assumption.
Qed.

(** C9. A section is in the result of [extract_sections] only if some
    line of the text, lowercased and trimmed, contains one of that
    section's header keywords; and the lines before the first header
    line are dropped: the result is that of the remaining lines alone,
    each value being lines of the remainder that follow a header line of
    its section. *)
Theorem extract_sections_headers_seen :
  forall text : string,
    (forall k v,
        Dict.get k (extract_sections text) = Some v ->
        exists hs kw line,
          In (k, hs) section_headers /\ In kw hs
          /\ In line (split_on newline text)
          /\ contains kw (strip (lower line)) = true)
    /\ (forall pre rest,
          split_on newline text = pre ++ rest ->
          Forall nonheader pre ->
          extract_sections text = extract_sections_lines rest
          /\ forall k v,
              Dict.get k (extract_sections text) = Some v ->
              gathered_under rest k v).
Proof.
  intros text. split.
  - intros k v H. unfold extract_sections in H.
    apply extract_sections_lines_gathered in H.
    destruct H as (a & h & seg & b & E & Hh & _).
    destruct (header_of_keyword _ _ Hh) as (hs & kw & Hin & Hkw & Hc).
    exists hs, kw, h. repeat split; try assumption.
    rewrite E. apply in_or_app. right. left. reflexivity.
  - intros pre rest E Hpre.
    assert (extract_sections text = extract_sections_lines rest) as Hdrop.
    { unfold extract_sections, extract_sections_lines. rewrite E.
      rewrite fold_left_app. now rewrite seg_run_before_first_header. }
    split; [assumption|].
    intros k v H. rewrite Hdrop in H.
    now apply extract_sections_lines_gathered.
Qed.

(** A name line before the first header. *)
Lemma extract_sections_headers_seen_witness :
  extract_sections (join nl ["Jane Roe"; "Skills"; "Python"])
  = extract_sections_lines ["Skills"; "Python"].
Proof.
  destruct (extract_sections_headers_seen
              (join nl ["Jane Roe"; "Skills"; "Python"])) as [_ H].
  apply (H ["Jane Roe"] ["Skills"; "Python"]).
  - vm_compute. reflexivity.
  - constructor; [vm_compute; reflexivity|constructor].
Defined.

(** *** A section opened more than once *)

(** Lines gathered while section [k] stays open. *)
Lemma seg_run_content :
  forall body secs k content,
    nonempty k = true ->
    Forall nonheader body ->
    fold_left seg_step body
      {| sections := secs; current_section := Some k;
         section_content := content |}
    = {| sections := secs; current_section := Some k;
         section_content := content ++ body |}.
Proof.
  induction body as [|line body IH]; intros secs k content Hk Hbody; simpl.
  - now rewrite app_nil_r.
  - inversion Hbody as [|? ? Hline Hrest]; subst.
    unfold seg_step at 2. rewrite Hline. simpl. rewrite Hk.
    rewrite IH by assumption. rewrite <- app_assoc. reflexivity.
Qed.

(** A flush leaves the value of a section that is not open alone. *)
Lemma flush_other :
  forall st k,
    current_section st <> Some k ->
    Dict.get k (flush st) = Dict.get k (sections st).
Proof.
  intros st k Hk. unfold flush.
  destruct (current_section st) as [cur|]; [|reflexivity].
  destruct (section_content st); [reflexivity|].
  destruct (nonempty cur); [|reflexivity].
  apply get_set_other. congruence.
Qed.

(** Once written, the value of [k] stays as long as no later line opens
    [k] again. *)
Lemma seg_run_keeps :
  forall rest st k v,
    Dict.get k (sections st) = Some v ->
    current_section st <> Some k ->
    Forall (fun l => header_of l <> Some k) rest ->
    Dict.get k (flush (fold_left seg_step rest st)) = Some v.
Proof.
  induction rest as [|line rest IH]; intros st k v Hget Hcur Hrest; simpl.
  - now rewrite flush_other.
  - inversion Hrest as [|? ? Hline Hrest']; subst.
    apply IH; [| |assumption]; unfold seg_step;
      destruct (header_of line) as [key|] eqn:Eh; simpl.
    + now rewrite flush_other.
    + destruct (truthy (current_section st)); assumption.
    + congruence.
    + destruct (truthy (current_section st)); assumption.
Qed.

(** The lines gathered under the last header line of [k] are written at
    the next header line, or at the end, and then stay. *)
Lemma seg_run_last_content :
  forall rest secs k body,
    nonempty k = true ->
    body <> [] ->
    match rest with [] => True | l :: _ => header_of l <> None end ->
    Forall (fun l => header_of l <> Some k) rest ->
    Dict.get k
      (flush (fold_left seg_step rest
                {| sections := secs; current_section := Some k;
                   section_content := body |}))
    = Some (join nl body).
Proof.
  intros rest secs k body Hk Hbody Hhead Hrest.
  assert (Dict.get k
            (flush {| sections := secs; current_section := Some k;
                      section_content := body |})
          = Some (join nl body)) as Hflush.
  { unfold flush. simpl. destruct body; [contradiction|].
    rewrite Hk. apply get_set_same. }
  destruct rest as [|line rest]; simpl; [assumption|].
  inversion Hrest as [|? ? Hline Hrest']; subst.
  unfold seg_step at 2.
  destruct (header_of line) as [key|] eqn:Eh; [|contradiction].
  apply seg_run_keeps; simpl; [assumption|congruence|assumption].
Qed.

(** C10, as stated, fails.  In the text Experience / foo / Experience /
    Skills / bar the experience header matches twice and a non-header
    line follows the last match, yet the value returned for experience
    is foo, gathered under the first occurrence. *)
Lemma overwrite_claim_as_stated_fails :
  ~ overwrite_claim_as_stated twice_opened_text "experience".
Proof.
  intros H.
  destruct (H ["Experience"; "foo"] "Experience" ["Skills"; "bar"])
    as (seg & Hseg & Hget).
  - vm_compute. reflexivity.
  - vm_compute. reflexivity.
  - repeat constructor; vm_compute; discriminate.
  - constructor. vm_compute. reflexivity.
  - apply Exists_cons_tl. constructor. vm_compute. reflexivity.
  - assert (Dict.get "experience" (extract_sections twice_opened_text)
            = Some "foo") as E by (vm_compute; reflexivity).
    rewrite E in Hget. injection Hget as Hjoin.
    destruct seg as [|x seg]; [discriminate|].
    assert (In x ["Skills"; "bar"]) as Hx by (apply Hseg; left; reflexivity).
    destruct Hx as [<-|[<-|[]]]; destruct seg; discriminate.
Qed.

(** C10, amended.  When a line [h] is recognised as the header of
    section [k], is directly followed by at least one non-header line,
    and no later line is recognised as a header of [k], the value
    returned for [k] is exactly the lines between [h] and the next
    header line (or the end), joined by newlines: what earlier
    occurrences of the header gathered is overwritten, not kept or
    concatenated. *)
Theorem extract_sections_last_header_wins :
  forall (text : string) (pre : list string) (h : string)
         (body rest : list string) (k : string),
    split_on newline text = pre ++ h :: body ++ rest ->
    header_of h = Some k ->
    body <> [] ->
    Forall nonheader body ->
    match rest with [] => True | l :: _ => header_of l <> None end ->
    Forall (fun l => header_of l <> Some k) rest ->
    Dict.get k (extract_sections text) = Some (join nl body).
Proof.
  intros text pre h body rest k E Hh Hbody Hnon Hhead Hrest.
  unfold extract_sections, extract_sections_lines. rewrite E.
  rewrite fold_left_app. simpl. rewrite fold_left_app.
  unfold seg_step at 3. rewrite Hh.
  pose proof (header_of_truthy _ _ Hh) as Hk.
  rewrite seg_run_content by assumption. simpl.
  now apply seg_run_last_content.
Qed.

(** Skills opened twice: the second body replaces the first. *)
Lemma extract_sections_last_header_wins_witness :
  Dict.get "skills"
    (extract_sections
       (join nl ["Skills"; "Coq"; "Education"; "MIT"; "Skills"; "Python";
                 "Rocq"]))
  = Some (join nl ["Python"; "Rocq"]).
Proof.
  apply (extract_sections_last_header_wins
           (join nl ["Skills"; "Coq"; "Education"; "MIT"; "Skills"; "Python";
                     "Rocq"])
           ["Skills"; "Coq"; "Education"; "MIT"] "Skills"
           ["Python"; "Rocq"] [] "skills").
  - vm_compute. reflexivity.
  - vm_compute. reflexivity.
  - discriminate.
  - repeat constructor; vm_compute; reflexivity.
  - exact I.
  - constructor.
Defined.

(** A line that holds keywords of two sections opens the one declared
    first: here the skills keyword occurs on two lines, but the second
    of them opens education. *)
Example shared_keyword_line_opens_first_section :
  header_of "Education and skills" = Some "education"
  /\ extract_sections (join nl ["Skills"; "a"; "Education and skills"; "b"])
     = [("skills", "a"); ("education", "b")].
Proof. split; vm_compute; reflexivity. Qed.

(** ** The resume scenario, end to end *)

(** On the scenario resume the three sections are found, the email is
    read, technology wins the tie with finance at 5 hits each, and the
    ATS score is above 60. *)
Example scenario_resume_analysis :
  Dict.keys (extract_sections scenario_resume_text)
    = ["experience"; "education"; "skills"]
  /\ email (extract_contact_info scenario_resume_text) = Some "john@x.com"
  /\ industry_scores industry_keywords (lower scenario_resume_text)
     = [("technology", 5); ("marketing", 0); ("finance", 5);
        ("healthcare", 0)]
  /\ detect_industry industry_keywords (lower scenario_resume_text)
     = "technology"
  /\ exists ka,
      analyze_keywords industry_keywords (lower scenario_resume_text)
                       "technology" = Some ka
      /\ (60 < calculate_ats_score scenario_resume_text
                  (extract_sections scenario_resume_text)
                  (extract_contact_info scenario_resume_text) ka)%Q.
Proof.
  repeat (split; [vm_compute; reflexivity|]).
  eexists. split; [vm_compute; reflexivity|].
  vm_compute. reflexivity.
Qed.

(** * Further properties of the engine *)

(** ** The matcher *)

Section RunFacts.
Context {R : Type}.
Implicit Types (k : @cont R).

Lemma lit_reaches :
  forall l k prev s cap x, lit l k prev s cap = Some x -> reaches k x.
Proof.
  induction l as [|a l IH]; intros k prev s cap x; simpl.
  - intros H. exists prev, s, cap. exact H.
  - destruct s as [|c s]; [discriminate|].
    destruct (Ascii.eqb a c); [apply IH|discriminate].
Qed.

Lemma rep_greedy_reaches :
  forall p s least k prev cap x,
    rep_greedy p least k prev s cap = Some x -> reaches k x.
Proof.
  intros p. induction s as [|c s IH]; intros least k prev cap x; simpl.
  - destruct least; [|discriminate].
    intros H. exists prev, EmptyString, cap. exact H.
  - destruct (p c).
    + destruct (rep_greedy p (Nat.pred least) k (Some c) s cap) eqn:E.
      * intros [= <-]. eapply IH. exact E.
      * destruct least; [|discriminate]. intros H. eexists _, _, _. exact H.
    + destruct least; [|discriminate]. intros H. eexists _, _, _. exact H.
Qed.

Lemma rep_lazy_reaches :
  forall p s least k prev cap x,
    rep_lazy p least k prev s cap = Some x -> reaches k x.
Proof.
  intros p. induction s as [|c s IH]; intros least k prev cap x; simpl.
  - destruct least; [|discriminate].
    destruct (k prev EmptyString cap) eqn:E; [|discriminate].
    intros [= <-]. eexists _, _, _. exact E.
  - destruct least.
    + destruct (k prev (String c s) cap) eqn:E.
      * intros [= <-]. eexists _, _, _. exact E.
      * destruct (p c); [apply IH|discriminate].
    + destruct (p c); [apply IH|discriminate].
Qed.

(** Whatever a run returns, its continuation returned. *)
Lemma run_reaches :
  forall r k prev s cap x, run r k prev s cap = Some x -> reaches k x.
Proof.
  induction r as [|p|l|a IHa b IHb|a IHa b IHb|g least p|a IHa| |];
    intros k prev s cap x; simpl.
  - intros H. eexists _, _, _. exact H.
  - destruct s as [|c s]; [discriminate|].
    destruct (p c); [|discriminate]. intros H. eexists _, _, _. exact H.
  - apply lit_reaches.
  - intros H. apply IHa in H. destruct H as (p1 & s1 & c1 & H).
    apply IHb in H. exact H.
  - destruct (run a k prev s cap) eqn:E.
    + intros [= <-]. eapply IHa. exact E.
    + apply IHb.
  - destruct g; [apply rep_greedy_reaches|apply rep_lazy_reaches].
  - intros H. apply IHa in H. destruct H as (p1 & s1 & c1 & H).
    eexists _, _, _. exact H.
  - destruct (xorb _ _); [|discriminate]. intros H. eexists _, _, _. exact H.
  - destruct s as [|c [|c' s]]; try discriminate.
    + intros H. eexists _, _, _. exact H.
    + destruct (Ascii.eqb c newline); [|discriminate].
      intros H. eexists _, _, _. exact H.
Qed.
End RunFacts.

Lemma substring_prefix :
  forall n s, exists rest, s = (substring 0 n s ++ rest)%string.
Proof.
  induction n as [|n IH]; intros s.
  - exists s. destruct s; reflexivity.
  - destruct s as [|c s]; simpl.
    + exists EmptyString. reflexivity.
    + destruct (IH s) as [rest E]. exists rest. simpl. f_equal. exact E.
Qed.

(** The text of a match starts the text it was found at. *)
Lemma match_here_prefix :
  forall r prev s m,
    match_here r prev s = Some m ->
    exists rest, s = (m_text m ++ rest)%string.
Proof.
  intros r prev s m H. unfold match_here in H.
  apply run_reaches in H. destruct H as (p1 & s1 & c1 & [= <-]). simpl.
  apply substring_prefix.
Qed.

Lemma search_from_occurs :
  forall r s prev m,
    search_from r prev s = Some m -> occurs_in (m_text m) s.
Proof.
  intros r. induction s as [|c s IH]; intros prev m; simpl.
  - destruct (match_here r prev EmptyString) eqn:E; [|discriminate].
    intros [= <-]. apply match_here_prefix in E. destruct E as [rest E].
    exists EmptyString, rest. exact E.
  - destruct (match_here r prev (String c s)) eqn:E.
    + intros [= <-]. apply match_here_prefix in E. destruct E as [rest E].
      exists EmptyString, rest. exact E.
    + intros H. apply IH in H. destruct H as (before & after & ->).
      exists (String c before), after. reflexivity.
Qed.

Lemma group0_occurs :
  forall r text found,
    group0 (search r text) = Some found -> occurs_in found text.
Proof.
  intros r text found. unfold group0, search.
  destruct (search_from r None text) as [m|] eqn:E; [|discriminate].
  intros [= <-]. eapply search_from_occurs. exact E.
Qed.

Lemma first_phone_occurs :
  forall formats text found,
    first_phone formats text = Some found -> occurs_in found text.
Proof.
  induction formats as [|p formats IH]; intros text found; simpl.
  - discriminate.
  - destruct (search (ast p) text) as [m|] eqn:E; [|apply IH].
    intros [= <-]. eapply search_from_occurs. exact E.
Qed.

(** ** extract_contact_info *)

(** X1. No contact field is made up: the email and the phone returned
    occur verbatim in the text, the LinkedIn and GitHub links in the
    lowercased text. *)
Theorem extract_contact_info_verbatim :
  forall text : string,
    (forall e, email (extract_contact_info text) = Some e -> occurs_in e text)
    /\ (forall p, phone (extract_contact_info text) = Some p ->
                  occurs_in p text)
    /\ (forall l, linkedin (extract_contact_info text) = Some l ->
                  occurs_in l (lower text))
    /\ (forall g, github (extract_contact_info text) = Some g ->
                  occurs_in g (lower text)).
Proof.
  intros text. unfold extract_contact_info. cbn [email phone linkedin github].
  split; [|split; [|split]].
  - intros e. apply group0_occurs.
  - intros p. apply first_phone_occurs.
  - intros l. apply group0_occurs.
  - intros g. apply group0_occurs.
Qed.

Lemma extract_contact_info_verbatim_witness :
  occurs_in "john@x.com" scenario_resume_text
  /\ occurs_in "(555) 123-4567" scenario_resume_text.
Proof.
  destruct (extract_contact_info_verbatim scenario_resume_text)
    as (He & Hp & _).
  split; [apply He|apply Hp]; vm_compute; reflexivity.
Defined.

(** ** Lists, strings and dictionaries *)

Lemma In_take :
  forall (A : Type) n (l : list A) x, In x (take n l) -> In x l.
Proof.
  unfold take. induction n as [|n IH]; intros [|y l] x; simpl;
    try contradiction.
  intros [->|H]; [left; reflexivity|right; apply IH; assumption].
Qed.

Lemma In_when :
  forall (A : Type) (b : bool) (x y : A),
    In x (when b y) <-> b = true /\ x = y.
Proof.
  intros A [] x y; simpl; split; try tauto.
  - intros [<-|[]]. auto.
  - intros [_ ->]. auto.
  - intros [H _]. discriminate.
Qed.

Lemma Qlt_bool_iff (a b : Q) : Qlt_bool a b = true <-> (a < b)%Q.
Proof.
  unfold Qlt_bool. split.
  - intros H. apply negb_true_iff in H. apply Qnot_le_lt. intros Hle.
    apply Qle_bool_iff in Hle. congruence.
  - apply Qlt_bool_true.
Qed.

Lemma Qnat_le : forall a b, a <= b -> (Qnat a <= Qnat b)%Q.
Proof. intros a b H. unfold Qle, Qnat. simpl. lia. Qed.

Lemma Qnat_pos : forall n, 0 < n -> (0 < Qnat n)%Q.
Proof. intros n H. unfold Qlt, Qnat. simpl. lia. Qed.

Lemma split_on_no_sep :
  forall sep s w,
    In w (split_on sep s) -> any_char (Ascii.eqb sep) w = false.
Proof.
  intros sep. induction s as [|c s IH]; intros w; simpl.
  - intros [<-|[]]. reflexivity.
  - destruct (Ascii.eqb c sep) eqn:E.
    + intros [<-|H]; [reflexivity|auto].
    + destruct (split_on sep s) as [|w0 ws] eqn:Es.
      * intros [<-|[]]. simpl. rewrite Ascii.eqb_sym, E. reflexivity.
      * intros [<-|H].
        -- simpl. rewrite Ascii.eqb_sym, E. simpl. apply IH. left. reflexivity.
        -- apply IH. right. assumption.
Qed.

Lemma lstrip_keeps :
  forall p s, any_char p s = false -> any_char p (lstrip s) = false.
Proof.
  intros p. induction s as [|c s IH]; simpl; [reflexivity|].
  intros H. apply orb_false_iff in H. destruct H as [Hc Hs].
  destruct (isspace c); [auto|]. simpl. now rewrite Hc, Hs.
Qed.

Lemma rstrip_keeps :
  forall p s, any_char p s = false -> any_char p (rstrip s) = false.
Proof.
  intros p. induction s as [|c s IH]; simpl; [reflexivity|].
  intros H. apply orb_false_iff in H. destruct H as [Hc Hs].
  specialize (IH Hs). destruct (rstrip s) as [|c' r].
  - destruct (isspace c); simpl; [reflexivity|now rewrite Hc].
  - simpl. simpl in IH. now rewrite Hc, IH.
Qed.

(** Stripping adds no character. *)
Lemma strip_keeps :
  forall p s, any_char p s = false -> any_char p (strip s) = false.
Proof. intros. unfold strip. now apply rstrip_keeps, lstrip_keeps. Qed.

Lemma rstrip_idem : forall s, rstrip (rstrip s) = rstrip s.
Proof.
  induction s as [|c s IH]; simpl; [reflexivity|].
  destruct (rstrip s) as [|c' r] eqn:E.
  - destruct (isspace c) eqn:Ec; simpl; [reflexivity|now rewrite Ec].
  - simpl. simpl in IH. now rewrite IH.
Qed.

Lemma lstrip_headed : forall s, headed (lstrip s).
Proof.
  induction s as [|c s IH]; simpl; [exact I|].
  destruct (isspace c) eqn:E; [assumption|]. simpl. assumption.
Qed.

Lemma rstrip_headed : forall s, headed s -> headed (rstrip s).
Proof.
  intros [|c s]; simpl; [auto|]. intros H.
  destruct (rstrip s); [rewrite H|]; simpl; assumption.
Qed.

Lemma lstrip_of_headed : forall s, headed s -> lstrip s = s.
Proof. intros [|c s]; simpl; [reflexivity|]. now intros ->. Qed.

(** A stripped string has nothing left to strip. *)
Lemma strip_idem : forall s, strip (strip s) = strip s.
Proof.
  intros s. unfold strip.
  rewrite (lstrip_of_headed (rstrip (lstrip s))).
  - apply rstrip_idem.
  - apply rstrip_headed, lstrip_headed.
Qed.

Lemma lstrip_blank :
  forall s, any_char visible s = false -> lstrip s = EmptyString.
Proof.
  induction s as [|c s IH]; simpl; [reflexivity|].
  unfold visible at 1. destruct (isspace c); simpl; [assumption|discriminate].
Qed.

Lemma split_ws_aux_nonempty :
  forall s cur,
    cur <> None \/ any_char visible s = true -> split_ws_aux s cur <> [].
Proof.
  induction s as [|c s IH]; intros cur H; simpl.
  - destruct cur; [discriminate|].
    destruct H as [H|H]; [contradiction|discriminate].
  - simpl in H. unfold visible at 1 in H.
    destruct (isspace c); simpl in H.
    + destruct cur; [discriminate|]. apply IH.
      destruct H as [H|H]; [contradiction|auto].
    + destruct cur; apply IH; left; discriminate.
Qed.

(** A text that is not blank has a word. *)
Lemma nonblank_has_word :
  forall s, nonempty (strip s) = true -> 1 <= word_count s.
Proof.
  intros s H.
  assert (any_char visible s = true) as Hv.
  { destruct (any_char visible s) eqn:E; [reflexivity|].
    unfold strip in H. rewrite (lstrip_blank _ E) in H. discriminate. }
  unfold word_count, split_ws.
  pose proof (split_ws_aux_nonempty s None (or_intror Hv)) as Hne.
  destruct (split_ws_aux s None); [contradiction|simpl; lia].
Qed.

Lemma count_from_absent :
  forall needle s skip,
    contains needle s = false -> count_from needle s skip = 0.
Proof.
  intros needle. induction s as [|c s IH]; intros skip H; simpl;
    [reflexivity|].
  simpl in H. apply orb_false_iff in H. destruct H as [Hs Hc].
  destruct skip; [|auto]. rewrite Hs. auto.
Qed.

(** What does not occur is counted zero times. *)
Lemma count_absent :
  forall s needle, contains needle s = false -> count s needle = 0.
Proof.
  intros s needle H. unfold count. destruct needle as [|a needle].
  - destruct s; discriminate.
  - now apply count_from_absent.
Qed.

Section DictKeys.
Context {V : Type}.
Implicit Types (d : Dict.t V) (k : string) (v : V).

Lemma In_keys_get d k :
  In k (Dict.keys d) <-> exists v, Dict.get k d = Some v.
Proof.
  induction d as [|[k' v'] d IH]; simpl.
  - split; [contradiction|intros [v H]; discriminate].
  - destruct (String.eqb_spec k k') as [->|Hne].
    + split; [eauto|auto].
    + rewrite IH. split.
      * intros [H|H]; [congruence|assumption].
      * auto.
Qed.

Lemma keys_set d k v :
  Dict.keys (Dict.set k v d) = Dict.keys d
  \/ (~ In k (Dict.keys d)
      /\ Dict.keys (Dict.set k v d) = Dict.keys d ++ [k]).
Proof.
  induction d as [|[k' v'] d IH]; simpl.
  - right. auto.
  - destruct (String.eqb_spec k k') as [->|Hne]; simpl.
    + left. reflexivity.
    + destruct IH as [E|[Hn E]].
      * left. now rewrite E.
      * right. split; [|now rewrite E].
        intros [H|H]; [congruence|contradiction].
Qed.

(** Writing a key never duplicates it. *)
Lemma keys_set_NoDup d k v :
  NoDup (Dict.keys d) -> NoDup (Dict.keys (Dict.set k v d)).
Proof.
  intros H. destruct (keys_set d k v) as [E|[Hn E]]; rewrite E; [assumption|].
  apply NoDup_app; [assumption|repeat constructor; intros []| ].
  intros x Hx [<-|[]]. contradiction.
Qed.

Lemma In_entry_get d k v :
  NoDup (Dict.keys d) -> In (k, v) d -> Dict.get k d = Some v.
Proof.
  induction d as [|[k' v'] d IH]; intros Hnd Hin; [contradiction|].
  simpl in *. inversion Hnd as [|? ? Hk Hd]; subst.
  destruct Hin as [[= -> ->]|Hin].
  - now rewrite String.eqb_refl.
  - destruct (String.eqb_spec k k') as [->|Hne]; [|auto].
    exfalso. apply Hk. unfold Dict.keys. apply (in_map fst) in Hin. exact Hin.
Qed.
End DictKeys.

(** ** detect_industry, further *)

(** X2. On a database that lists at least one industry, [detect_industry]
    answers an industry of the database, and it is the first one, in
    declaration order, whose score is the largest: every industry
    declared before it scores strictly less, every one after it at most
    as much. *)
Theorem detect_industry_first_maximum :
  forall (db : keyword_db) (text : string),
    db <> [] ->
    In (detect_industry db text) (Dict.keys db)
    /\ exists before s after,
        industry_scores db text
          = before ++ (detect_industry db text, s) :: after
        /\ (forall x, In x before -> snd x < s)
        /\ (forall x, In x after -> snd x <= s).
Proof.
  intros db text Hne.
  destruct (detect_industry_argmax db text Hne) as (l1 & s & l2 & E & H1 & H2).
  split.
  - assert (In (detect_industry db text)
               (Dict.keys (industry_scores db text))) as Hin.
    { rewrite E. unfold Dict.keys. rewrite map_app. apply in_or_app.
      right. left. reflexivity. }
    unfold Dict.keys, industry_scores in Hin. rewrite map_map in Hin.
    exact Hin.
  - exists l1, s, l2. auto.
Qed.

Lemma detect_industry_first_maximum_witness :
  In (detect_industry industry_keywords (lower scenario_resume_text))
     (Dict.keys industry_keywords).
Proof.
  apply (detect_industry_first_maximum industry_keywords
           (lower scenario_resume_text)).
  discriminate.
Defined.

(** ** analyze_keywords, further *)

Lemma sort_keyword_fold :
  forall text kws found missing total,
    fold_left (sort_keyword text) kws (found, missing, total)
    = (found ++ filter (mentions text) kws,
       missing ++ filter (fun k => negb (mentions text k)) kws,
       total + List.length kws).
Proof.
  intros text. induction kws as [|kw kws IH]; intros found missing total.
  - simpl. rewrite !app_nil_r, Nat.add_0_r. reflexivity.
  - cbn [fold_left filter List.length].
    assert (sort_keyword text (found, missing, total) kw
            = if mentions text kw
              then (found ++ [kw], missing, S total)
              else (found, missing ++ [kw], S total)) as E by reflexivity.
    rewrite E. destruct (mentions text kw); simpl;
      rewrite IH, <- ?app_assoc, ?Nat.add_succ_r; reflexivity.
Qed.

(** The two passes of [analyze_keywords] split the keywords of the
    industry, in dictionary order, by whether the text mentions them. *)
Lemma sort_keywords_filter :
  forall text cats,
    sort_keywords text cats
    = (filter (mentions text) (all_keywords cats),
       filter (fun k => negb (mentions text k)) (all_keywords cats),
       List.length (all_keywords cats)).
Proof.
  intros text cats. unfold sort_keywords.
  assert (forall found missing total,
    fold_left (fun acc cat => fold_left (sort_keyword text) (snd cat) acc)
              cats (found, missing, total)
    = (found ++ filter (mentions text) (all_keywords cats),
       missing ++ filter (fun k => negb (mentions text k)) (all_keywords cats),
       total + List.length (all_keywords cats))) as H.
  { induction cats as [|cat cats IH]; intros found missing total; simpl.
    - rewrite !app_nil_r, Nat.add_0_r. reflexivity.
    - rewrite sort_keyword_fold, IH. unfold all_keywords. simpl.
      rewrite !filter_app, length_app, <- !app_assoc, Nat.add_assoc.
      reflexivity. }
  apply (H [] [] 0).
Qed.

Lemma share_bounds :
  forall a b, a <= b -> 0 < b ->
    (0 <= Qnat a / Qnat b * 100)%Q /\ (Qnat a / Qnat b * 100 <= 100)%Q.
Proof.
  intros a b Hab Hb.
  assert (0 <= Qnat a / Qnat b)%Q as H0.
  { apply Qle_shift_div_l; [apply Qnat_pos; assumption|].
    rewrite Qmult_0_l. apply Qnat_nonneg. }
  assert (Qnat a / Qnat b <= 1)%Q as H1.
  { apply Qle_shift_div_r; [apply Qnat_pos; assumption|].
    rewrite Qmult_1_l. apply Qnat_le. assumption. }
  split; lra.
Qed.

Lemma analyze_keywords_listed :
  forall db text industry cats,
    Dict.get industry db = Some cats ->
    exists ka,
      analyze_keywords db text industry = Some ka
      /\ total_possible ka = Some (List.length (all_keywords cats))
      /\ total_found ka
         = Some (List.length (filter (mentions text) (all_keywords cats)))
      /\ found_keywords ka
         = take 20 (filter (mentions text) (all_keywords cats))
      /\ missing_keywords ka
         = take 10 (filter (fun k => negb (mentions text k))
                           (all_keywords cats))
      /\ (all_keywords cats <> [] ->
          (score ka
           == Qnat (List.length (filter (mentions text) (all_keywords cats)))
              / Qnat (List.length (all_keywords cats)) * 100)%Q).
Proof.
  intros db text industry cats Hget. unfold analyze_keywords. rewrite Hget.
  rewrite sort_keywords_filter.
  set (all := all_keywords cats). set (found := filter (mentions text) all).
  assert (List.length found <= List.length all) as Hle
      by apply filter_length_le.
  destruct (Nat.ltb_spec 0 (List.length all)) as [Hpos|Hz].
  - unfold py_div. rewrite (Qnat_pos_nonzero _ Hpos). simpl.
    eexists. split; [reflexivity|]. simpl.
    do 4 (split; [reflexivity|]). intros _.
    destruct (share_bounds _ _ Hle Hpos) as [H0 H1].
    destruct (py_min_cases 100
                (Qnat (List.length found) / Qnat (List.length all) * 100))
      as [[H E]|[H E]]; rewrite E; lra.
  - eexists. split; [reflexivity|]. simpl.
    do 4 (split; [reflexivity|]).
    intros Hne. destruct all; [contradiction|simpl in Hz; lia].
Qed.

(** X3. For an industry of the database, the found keywords are the
    first 20 keywords of the industry, in dictionary order, that the text
    mentions, the missing ones the first 10 it does not mention; the two
    totals count all of them, and the score is the share found, times
    100. *)
Theorem analyze_keywords_found_and_missing :
  forall (db : keyword_db) (text industry : string)
         (cats : Dict.t (list string)),
    Dict.get industry db = Some cats ->
    exists ka,
      analyze_keywords db text industry = Some ka
      /\ total_possible ka = Some (List.length (all_keywords cats))
      /\ total_found ka
         = Some (List.length (filter (mentions text) (all_keywords cats)))
      /\ found_keywords ka
         = take 20 (filter (mentions text) (all_keywords cats))
      /\ missing_keywords ka
         = take 10 (filter (fun k => negb (mentions text k))
                           (all_keywords cats))
      /\ (forall kw, In kw (found_keywords ka) -> occurs_in (lower kw) text)
      /\ (forall kw, In kw (missing_keywords ka) ->
                     ~ occurs_in (lower kw) text)
      /\ (all_keywords cats <> [] ->
          (score ka
           == Qnat (List.length (filter (mentions text) (all_keywords cats)))
              / Qnat (List.length (all_keywords cats)) * 100)%Q).
Proof.
  intros db text industry cats Hget.
  destruct (analyze_keywords_listed db text industry cats Hget)
    as (ka & E & Tp & Tf & Fk & Mk & Sc).
  exists ka. do 5 (split; [assumption|]). split; [|split; [|assumption]].
  - intros kw Hkw. rewrite Fk in Hkw. apply In_take, filter_In in Hkw.
    apply contains_iff. apply Hkw.
  - intros kw Hkw Hocc. rewrite Mk in Hkw. apply In_take, filter_In in Hkw.
    destruct Hkw as [_ Hkw]. apply negb_true_iff in Hkw.
    apply contains_iff in Hocc. unfold mentions in Hkw. congruence.
Qed.

Lemma analyze_keywords_found_and_missing_witness :
  exists ka,
    analyze_keywords industry_keywords (lower scenario_resume_text)
                     "technology" = Some ka
    /\ total_possible ka = Some 47
    /\ found_keywords ka = ["python"; "aws"; "developed"].
Proof.
  destruct (analyze_keywords_found_and_missing
              industry_keywords (lower scenario_resume_text) "technology"
              (snd (hd ("", []) industry_keywords)) eq_refl)
    as (ka & E & Tp & _ & Fk & _).
  exists ka. split; [exact E|]. split.
  - rewrite Tp. vm_compute. reflexivity.
  - rewrite Fk. vm_compute. reflexivity.
Defined.

(** X4. The keyword recommendation built from an analysis of
    [analyze_keywords] suggests at most five keywords, all of them
    keywords the text does not mention. *)
Theorem keyword_recommendation_only_absent_keywords :
  forall (db : keyword_db) (text industry : string) (ka : keyword_analysis),
    analyze_keywords db text industry = Some ka ->
    exists suggested,
      r_extra (keyword_recommendation ka) = Some ("keywords", suggested)
      /\ List.length suggested <= 5
      /\ forall kw, In kw suggested -> ~ occurs_in (lower kw) text.
Proof.
  intros db text industry ka H.
  exists (take 5 (missing_keywords ka)).
  split; [reflexivity|]. split; [apply firstn_le_length|].
  intros kw Hkw Hocc. apply In_take in Hkw.
  destruct (Dict.get industry db) as [cats|] eqn:Hget.
  - destruct (analyze_keywords_listed db text industry cats Hget)
      as (ka' & E & _ & _ & _ & Mk & _).
    rewrite E in H. injection H as <-.
    rewrite Mk in Hkw. apply In_take, filter_In in Hkw.
    destruct Hkw as [_ Hkw]. apply negb_true_iff in Hkw.
    apply contains_iff in Hocc. unfold mentions in Hkw. congruence.
  - unfold analyze_keywords in H. rewrite Hget in H. injection H as <-.
    contradiction.
Qed.

Lemma keyword_recommendation_only_absent_keywords_witness :
  exists ka suggested,
    analyze_keywords industry_keywords (lower scenario_resume_text)
                     "technology" = Some ka
    /\ r_extra (keyword_recommendation ka) = Some ("keywords", suggested)
    /\ List.length suggested <= 5.
Proof.
  destruct (analyze_keywords industry_keywords (lower scenario_resume_text)
                             "technology") as [ka|] eqn:E;
    [|vm_compute in E; discriminate].
  destruct (keyword_recommendation_only_absent_keywords
              industry_keywords (lower scenario_resume_text) "technology" ka E)
    as (suggested & Hr & Hl & _).
  exists ka, suggested. auto.
Defined.

(** ** calculate_ats_score, further *)




Lemma ats_score_at_least_7 :
  forall text sections c ka,
    (0 <= score ka)%Q -> (score ka <= 100)%Q ->
    (7 <= calculate_ats_score text sections c ka)%Q.
Proof.
  intros text sections c ka H0 H100.
  destruct (ats_score_sum_in_range text sections c ka H0 H100) as (E & _ & _).
  destruct (section_score_points sections) as (_ & Hs0 & Hs1).
  destruct (contact_score_points c) as (_ & Hc0 & Hc1).
  destruct (format_score_points text) as (_ & Hf0 & Hf1).
  rewrite E.
  assert (Hk : (score ka / 100 * 30 == (3 # 10) * score ka)%Q) by field.
  rewrite Hk. lra.
Qed.



(** ** extract_sections, further *)

Lemma flush_NoDup st :
  NoDup (Dict.keys (sections st)) -> NoDup (Dict.keys (flush st)).
Proof.
  intros H. unfold flush.
  destruct (current_section st) as [cur|]; [|assumption].
  destruct (section_content st); [assumption|].
  destruct (nonempty cur); [|assumption].
  now apply keys_set_NoDup.
Qed.

Lemma seg_run_NoDup lines :
  forall st,
    NoDup (Dict.keys (sections st)) ->
    NoDup (Dict.keys (sections (fold_left seg_step lines st))).
Proof.
  induction lines as [|line lines IH]; intros st H; simpl; [assumption|].
  apply IH. unfold seg_step.
  destruct (header_of line); simpl.
  - now apply flush_NoDup.
  - destruct (truthy (current_section st)); assumption.
Qed.

(** X6. The sections map never has a key twice, its keys are among the
    six section names, and so it has at most six entries. *)
Theorem extract_sections_keys :
  forall text : string,
    NoDup (Dict.keys (extract_sections text))
    /\ (forall k, In k (Dict.keys (extract_sections text)) ->
                  In k ["experience"; "education"; "skills"; "summary";
                        "projects"; "certifications"])
    /\ List.length (extract_sections text) <= 6.
Proof.
  intros text.
  assert (NoDup (Dict.keys (extract_sections text))) as Hnd.
  { unfold extract_sections, extract_sections_lines.
    apply flush_NoDup, seg_run_NoDup. constructor. }
  assert (forall k, In k (Dict.keys (extract_sections text)) ->
                    In k (Dict.keys section_headers)) as Hin.
  { intros k Hk. apply In_keys_get in Hk. destruct Hk as [v Hv].
    apply extract_sections_lines_gathered in Hv.
    destruct Hv as (a & h & seg & b & _ & Hh & _).
    destruct (header_of_keyword _ _ Hh) as (hs & kw & Hhs & _).
    unfold Dict.keys. apply (in_map fst) in Hhs. exact Hhs. }
  split; [assumption|]. split; [exact Hin|].
  replace (List.length (extract_sections text))
    with (List.length (Dict.keys (extract_sections text)))
    by (unfold Dict.keys; apply length_map).
  apply (NoDup_incl_length Hnd Hin).
Qed.

(** ** identify_strengths and identify_weaknesses together *)

(** X7. The two lists never contradict each other: no analysis names
    adequate length as a strength and brevity as a weakness, nor strong
    keyword optimisation as a strength and insufficient keywords as a
    weakness. *)
Theorem strengths_and_weaknesses_agree :
  forall (text : string) (sections : Dict.t string) (c : contact_info)
         (ka : keyword_analysis),
    ~ (In "Adequate length and detail" (identify_strengths text sections ka)
       /\ In "Resume content too brief"
             (identify_weaknesses text sections c ka))
    /\ ~ (In "Strong industry keyword optimization"
             (identify_strengths text sections ka)
          /\ In "Insufficient industry-relevant keywords"
                (identify_weaknesses text sections c ka)).
Proof.
  intros text sections c ka. unfold identify_strengths, identify_weaknesses.
  repeat rewrite in_app_iff. repeat rewrite In_when.
  split; intros [Hs Hw].
  - assert ((300 <? word_count text)%nat = true) as H1
        by (intuition discriminate).
    assert ((word_count text <? 250)%nat = true) as H2
        by (intuition discriminate).
    apply Nat.ltb_lt in H1, H2. lia.
  - assert (Qlt_bool 70 (score ka) = true) as H1 by (intuition discriminate).
    assert (Qlt_bool (score ka) 40 = true) as H2 by (intuition discriminate).
    apply Qlt_bool_iff in H1, H2. lra.
Qed.

(** ** parse_resume and the upload handler, further *)

Lemma analysis_fields :
  forall db sent flesch text a,
    analyze_resume_content db sent flesch text = Some a ->
    a_text a = text
    /\ a_word_count a = word_count text
    /\ exists ka,
        analyze_keywords db (lower text) (detect_industry db (lower text))
          = Some ka
        /\ a_keyword_analysis a = ka
        /\ a_ats_score a
           = calculate_ats_score text (extract_sections text)
                                 (extract_contact_info text) ka.
Proof.
  intros db sent flesch text a. unfold analyze_resume_content.
  destruct (sent text) as [sentences|]; [|discriminate].
  destruct (flesch text) as [readability|]; [|discriminate].
  destruct (analyze_keywords db (lower text) (detect_industry db (lower text)))
    as [ka|] eqn:Eka; [|discriminate].
  intros [= <-]. simpl. repeat split. exists ka. auto.
Qed.

Lemma analysis_scores_in_range :
  forall db sent flesch text a,
    analyze_resume_content db sent flesch text = Some a ->
    (7 <= a_ats_score a)%Q /\ (a_ats_score a <= 100)%Q
    /\ (0 <= score (a_keyword_analysis a))%Q
    /\ (score (a_keyword_analysis a) <= 100)%Q.
Proof.
  intros db sent flesch text a H.
  destruct (analysis_fields _ _ _ _ _ H) as (_ & _ & ka & Eka & -> & ->).
  destruct (analyze_keywords_score_range _ _ _ _ Eka) as [H0 H100].
  destruct (ats_score_sum_in_range text (extract_sections text)
              (extract_contact_info text) ka H0 H100) as (_ & _ & U).
  pose proof (ats_score_at_least_7 text (extract_sections text)
              (extract_contact_info text) ka H0 H100).
  auto.
Qed.

(** X8. [parse_resume] never scores blank text: an analysis it returns is
    of a text that is not blank and has at least one word. *)
Theorem parse_resume_never_scores_blank_text :
  forall (db : keyword_db)
         (pdf_pages docx_paragraphs : bytes -> option (list string))
         (decode_utf8_ignore : bytes -> string)
         (sent_tokenize : string -> option (list string))
         (flesch_reading_ease : string -> option Q)
         (file_bytes : bytes) (filename : string) (a : analysis),
    parse_resume db pdf_pages docx_paragraphs decode_utf8_ignore
                 sent_tokenize flesch_reading_ease file_bytes filename
      = Some (Parsed a) ->
    strip (a_text a) <> EmptyString /\ 1 <= a_word_count a.
Proof.
  intros db pdf docx decode sent flesch file_bytes filename a.
  unfold parse_resume.
  match goal with
  | |- (if negb (nonempty (strip ?t)) then _ else _) = _ -> _ =>
      generalize t; intros text
  end.
  destruct (nonempty (strip text)) eqn:E; simpl; [|discriminate].
  destruct (analyze_resume_content db sent flesch text) as [a'|] eqn:Ea;
    [|discriminate].
  intros [= <-]. destruct (analysis_fields _ _ _ _ _ Ea) as (-> & -> & _).
  split.
  - intros H. rewrite H in E. discriminate.
  - now apply nonblank_has_word.
Qed.

Lemma parse_resume_never_scores_blank_text_witness :
  exists a,
    parse_resume industry_keywords (fun _ => None) (fun _ => None)
                 string_of_list_byte (fun t => Some [t]) (fun _ => Some 50%Q)
                 (list_byte_of_string "Python developer") "cv.txt"
      = Some (Parsed a)
    /\ 1 <= a_word_count a.
Proof.
  destruct (parse_resume industry_keywords (fun _ => None) (fun _ => None)
              string_of_list_byte (fun t => Some [t]) (fun _ => Some 50%Q)
              (list_byte_of_string "Python developer") "cv.txt")
    as [[msg|a]|] eqn:E; try (vm_compute in E; discriminate).
  exists a. split; [reflexivity|].
  apply (parse_resume_never_scores_blank_text _ _ _ _ _ _ _ _ _ E).
Defined.

(** X9. Whatever is uploaded and whatever the libraries do, the result
    of the upload handler's analysis carries an ATS score in [7,100], a
    keyword score in [0,100] and a format score in [17,100]. *)
Theorem upload_scores_in_range :
  forall (db : keyword_db)
         (pdf_pages docx_paragraphs : bytes -> option (list string))
         (decode_utf8_ignore : bytes -> string)
         (sent_tokenize : string -> option (list string))
         (flesch_reading_ease : string -> option Q)
         (file_bytes : bytes) (filename title : string),
    let u := AdvancedMain.analyze_resume_content
               db pdf_pages docx_paragraphs decode_utf8_ignore
               sent_tokenize flesch_reading_ease file_bytes filename title in
    (7 <= u_ats_score u)%Q /\ (u_ats_score u <= 100)%Q
    /\ (0 <= s_keyword_score (u_analysis u))%Q
    /\ (s_keyword_score (u_analysis u) <= 100)%Q
    /\ (17 <= s_format_score (u_analysis u))%Q
    /\ (s_format_score (u_analysis u) <= 100)%Q.
Proof.
  intros db pdf docx decode sent flesch file_bytes filename title u. subst u.
  unfold AdvancedMain.analyze_resume_content.
  destruct (parse_resume db pdf docx decode sent flesch file_bytes filename)
    as [[msg|a]|] eqn:E.
  - simpl. repeat split; lra.
  - unfold parse_resume in E.
    destruct (negb _); [discriminate|].
    destruct (analyze_resume_content db sent flesch _) as [a'|] eqn:Ea;
      [|discriminate].
    injection E as <-.
    destruct (analysis_scores_in_range _ _ _ _ _ Ea) as (L & U & K0 & K1).
    simpl.
    destruct (py_min_cases 100 (a_ats_score a' + 10)) as [[H Em]|[H Em]];
      rewrite Em; repeat split; lra.
  - simpl. repeat split; lra.
Qed.

(** * Further properties of the job matcher *)

Import JobMatcher.

(** ** extract_experience_requirements, further *)

Lemma list_min_le :
  forall ys y,
    (list_min y ys <= y)%Z /\ (forall z, In z ys -> (list_min y ys <= z)%Z).
Proof.
  unfold list_min. induction ys as [|a ys IH]; intros y; simpl.
  - split; [lia|contradiction].
  - destruct (IH (Z.min y a)) as [H1 H2]. split; [lia|].
    intros z [<-|Hz]; [lia|auto].
Qed.

Lemma list_max_ge :
  forall ys y,
    (y <= list_max y ys)%Z /\ (forall z, In z ys -> (z <= list_max y ys)%Z).
Proof.
  unfold list_max. induction ys as [|a ys IH]; intros y; simpl.
  - split; [lia|contradiction].
  - destruct (IH (Z.max y a)) as [H1 H2]. split; [lia|].
    intros z [<-|Hz]; [lia|auto].
Qed.

(** X10. The minimum of years the parser reports is never negative, and
    a maximum is reported only when it is strictly larger than the
    minimum. *)
Theorem extract_experience_years_ordered :
  forall job_text : string,
    let e := extract_experience_requirements job_text in
    (0 <= min_years e)%Z
    /\ (forall most, max_years e = Some most -> (min_years e < most)%Z).
Proof.
  intros job_text e. split; [apply extract_experience_min_years_nonneg|].
  subst e. unfold extract_experience_requirements.
  cbn [min_years max_years].
  destruct (years_found (lower job_text)) as [|y ys]; [discriminate|].
  intros most. destruct (several_values y ys) eqn:E; [|discriminate].
  intros [= <-]. unfold several_values in E. apply existsb_exists in E.
  destruct E as (z & Hz & Hne). apply negb_true_iff, Z.eqb_neq in Hne.
  destruct (list_min_le ys y) as [A1 A2].
  destruct (list_max_ge ys y) as [B1 B2].
  specialize (A2 _ Hz). specialize (B2 _ Hz). lia.
Qed.

Lemma extract_experience_years_ordered_witness :
  (min_years (extract_experience_requirements
                "At least 2 years of Python, 5+ years of experience overall")
   < 5)%Z.
Proof.
  destruct (extract_experience_years_ordered
              "At least 2 years of Python, 5+ years of experience overall")
    as [_ H].
  apply H. vm_compute. reflexivity.
Defined.

(** ** extract_education_requirements, further *)

Lemma first_degree_cases :
  forall ps text,
    first_degree ps text = (false, None)
    \/ exists p, In p ps /\ first_degree ps text = (true, level_of_pattern p).
Proof.
  induction ps as [|p ps IH]; intros text; simpl; [auto|].
  destruct (search (ast p) text).
  - right. exists p. auto.
  - destruct (IH text) as [H|(q & Hq & H)]; [auto|]. right. exists q. auto.
Qed.

(** X11. A degree level is reported only together with a required
    degree, and it is bachelor, master or doctorate; a posting for which
    no degree is required carries no level. *)
Theorem extract_education_level_needs_degree :
  forall job_text : string,
    let e := extract_education_requirements job_text in
    (degree_required e = false -> degree_level e = None)
    /\ (forall l, degree_level e = Some l ->
                  degree_required e = true
                  /\ In l ["bachelor"; "master"; "doctorate"]).
Proof.
  intros job_text e. subst e. unfold extract_education_requirements.
  destruct (first_degree_cases education_patterns (lower job_text))
    as [E|(p & Hp & E)]; rewrite E; cbn [degree_required degree_level].
  - split; [reflexivity|discriminate].
  - split; [discriminate|]. intros l Hl. split; [reflexivity|].
    simpl in Hp.
    repeat (destruct Hp as [<-|Hp];
            [vm_compute in Hl; try discriminate; injection Hl as <-;
             simpl; auto|]).
    contradiction.
Qed.

Lemma extract_education_level_needs_degree_witness :
  degree_required (extract_education_requirements scenario_job_text) = true.
Proof.
  destruct (extract_education_level_needs_degree scenario_job_text)
    as [_ H].
  apply (H "bachelor"). vm_compute. reflexivity.
Defined.

(** ** parse_skill_list and extract_skill_requirements, further *)

(** X12. [parse_skill_list] returns at most ten skills; each has more
    than two characters, no white space at either end, no comma, and is
    none of the generic terms. *)
Theorem parse_skill_list_entries :
  forall skill_text : string,
    List.length (parse_skill_list skill_text) <= 10
    /\ forall skill, In skill (parse_skill_list skill_text) ->
         2 < String.length skill
         /\ strip skill = skill
         /\ any_char (Ascii.eqb comma) skill = false
         /\ ~ In skill ["etc"; "experience"; "knowledge"; "work"].
Proof.
  intros skill_text. unfold parse_skill_list. split.
  - apply firstn_le_length.
  - intros skill H. apply In_take in H. apply filter_In in H.
    destruct H as [Hin Hf]. apply andb_true_iff in Hf.
    destruct Hf as [Hlen Hgen].
    apply in_map_iff in Hin. destruct Hin as (raw & <- & Hraw).
    split; [now apply Nat.ltb_lt|]. split; [apply strip_idem|]. split.
    + apply strip_keeps. eapply split_on_no_sep. exact Hraw.
    + intros Hbad. apply negb_true_iff in Hgen. unfold mem in Hgen.
      assert (existsb (String.eqb (strip raw))
                      ["etc"; "experience"; "knowledge"; "work"] = true)
        as Hx.
      { apply existsb_exists. exists (strip raw).
        split; [assumption|apply String.eqb_refl]. }
      congruence.
Qed.

Lemma counter_snoc :
  forall l a,
    counter (l ++ [a])
    = Dict.set a (S (match Dict.get a (counter l) with
                     | Some n => n
                     | None => 0
                     end))
               (counter l).
Proof. intros l a. unfold counter. rewrite fold_left_app. reflexivity. Qed.

(** Looking a word up in the counter gives its number of occurrences. *)
Lemma counter_get :
  forall l x,
    Dict.get x (counter l)
    = match count_occ string_dec l x with O => None | n => Some n end.
Proof.
  induction l as [|a l IH] using rev_ind; intros x; [reflexivity|].
  rewrite counter_snoc, count_occ_app. simpl.
  destruct (string_dec a x) as [->|Hne].
  - rewrite get_set_same, IH, Nat.add_1_r.
    destruct (count_occ string_dec l x); reflexivity.
  - rewrite get_set_other by congruence. rewrite IH, Nat.add_0_r.
    reflexivity.
Qed.

Lemma counter_keys_NoDup : forall l, NoDup (Dict.keys (counter l)).
Proof.
  induction l as [|a l IH] using rev_ind; [constructor|].
  rewrite counter_snoc. now apply keys_set_NoDup.
Qed.

Lemma counter_entry :
  forall l w n,
    In (w, n) (counter l) -> n = count_occ string_dec l w /\ 0 < n.
Proof.
  intros l w n H. apply In_entry_get in H; [|apply counter_keys_NoDup].
  rewrite counter_get in H.
  destruct (count_occ string_dec l w); [discriminate|].
  injection H as <-. lia.
Qed.

(** X13. The skill frequencies are the numbers of times each skill was
    extracted, as required or as preferred: a skill that was never
    extracted has no entry, and no skill has two entries. *)
Theorem skill_frequency_counts :
  forall (job_text skill : string),
    let s := extract_skill_requirements job_text in
    Dict.get skill (skill_frequency s)
    = match count_occ string_dec (required_skills s ++ preferred_skills s)
                      skill with
      | O => None
      | n => Some n
      end
    /\ NoDup (Dict.keys (skill_frequency s)).
Proof.
  intros job_text skill s. subst s. unfold extract_skill_requirements.
  cbn [skill_frequency required_skills preferred_skills].
  split; [apply counter_get|apply counter_keys_NoDup].
Qed.

(** ** calculate_skills_match, further *)

Lemma matches_le :
  forall skills keywords, matches skills keywords <= List.length skills.
Proof. intros. unfold matches. apply filter_length_le. Qed.

Lemma matches_no_keywords : forall skills, matches skills [] = 0.
Proof.
  intros skills. unfold matches. induction skills; simpl; auto.
Qed.

Lemma allocation_bounds :
  forall found total points,
    found <= total -> (0 <= points)%Q ->
    (0 <= allocation found total points)%Q
    /\ (allocation found total points <= points)%Q.
Proof.
  intros found total points Hle Hp. unfold allocation.
  destruct total as [|n]; [split; lra|].
  assert (0 < Qnat (S n))%Q as Hpos by (apply Qnat_pos; lia).
  assert (0 <= Qnat found / Qnat (S n))%Q as H0.
  { apply Qle_shift_div_l; [assumption|].
    rewrite Qmult_0_l. apply Qnat_nonneg. }
  assert (Qnat found / Qnat (S n) <= 1)%Q as H1.
  { apply Qle_shift_div_r; [assumption|].
    rewrite Qmult_1_l. now apply Qnat_le. }
  split; nra.
Qed.

Lemma allocation_none :
  forall total points,
    (allocation 0 total points
     == match total with O => points | S _ => 0 end)%Q.
Proof.
  intros [|n] points; unfold allocation; [reflexivity|].
  unfold Qnat at 1. simpl (inject_Z (Z.of_nat 0)). field.
  intros H. pose proof (Qnat_pos_nonzero (S n) ltac:(lia)) as Hn.
  apply Qeq_bool_neq in Hn. contradiction.
Qed.

Lemma skills_match_bounds :
  forall r j,
    exists v,
      calculate_skills_match r j = Some v /\ (0 <= v)%Q /\ (v <= 100)%Q.
Proof.
  intros r j. unfold calculate_skills_match. rewrite !points_for_allocation.
  eexists. split; [reflexivity|].
  match goal with
  | |- context [py_min 100 (allocation ?a ?b 80 + allocation ?c ?d 20)] =>
      destruct (allocation_bounds a b 80) as [A0 A1];
      [apply matches_le|lra|];
      destruct (allocation_bounds c d 20) as [B0 B1];
      [apply matches_le|lra|];
      destruct (py_min_cases 100 (allocation a b 80 + allocation c d 20))
        as [[H E]|[H E]]; rewrite E; split; lra
  end.
Qed.

(** X14. For a resume without found keywords (the key absent, or the
    list empty) no job skill can match: the skills score is 80 when the
    job requires no skill and 0 otherwise, plus 20 when it prefers none. *)
Theorem calculate_skills_match_without_keywords :
  forall (r : resume) (j : skills_info),
    resume_keywords r = [] ->
    exists v,
      calculate_skills_match r j = Some v
      /\ (v == (match required_skills j with [] => 80 | _ => 0 end)
               + (match preferred_skills j with [] => 20 | _ => 0 end))%Q.
Proof.
  intros r j Hk. unfold calculate_skills_match. rewrite Hk. simpl map.
  rewrite !points_for_allocation, !matches_no_keywords.
  eexists. split; [reflexivity|].
  rewrite py_min_Qmin, !allocation_none, !length_map.
  destruct (required_skills j), (preferred_skills j); simpl;
    vm_compute; reflexivity.
Qed.

Lemma calculate_skills_match_without_keywords_witness :
  exists v,
    calculate_skills_match
      {| detected_industry := None; resume_keyword_analysis := None |}
      (extract_skill_requirements scenario_job_text) = Some v
    /\ (v == 0)%Q.
Proof.
  destruct (calculate_skills_match_without_keywords
              {| detected_industry := None; resume_keyword_analysis := None |}
              (extract_skill_requirements scenario_job_text) eq_refl)
    as (v & E & Hv).
  exists v. split; [exact E|]. rewrite Hv. vm_compute. reflexivity.
Defined.

(** ** calculate_match_score *)

Lemma experience_match_values :
  forall r e,
    calculate_experience_match r e = 60%Z
    \/ calculate_experience_match r e = 75%Z
    \/ calculate_experience_match r e = 90%Z.
Proof.
  intros r e. unfold calculate_experience_match.
  destruct (_ =? 0)%Z; [auto|]. destruct (_ <=? 3)%Z; auto.
Qed.

Lemma education_match_values :
  forall r e,
    calculate_education_match r e = 75%Z
    \/ calculate_education_match r e = 100%Z.
Proof.
  intros r e. unfold calculate_education_match. destruct (negb _); auto.
Qed.

Lemma industry_match_values :
  forall r j,
    calculate_industry_match r j = 50%Z
    \/ calculate_industry_match r j = 70%Z
    \/ calculate_industry_match r j = 100%Z.
Proof.
  intros r j. unfold calculate_industry_match.
  destruct (String.eqb _ _); [auto|]. destruct (_ || _); auto.
Qed.

(** [calculate_match_score] always returns, with these fields. *)
Lemma match_score_fields :
  forall r job,
    exists v,
      calculate_skills_match r (skills (job_requirements job)) = Some v
      /\ (0 <= v)%Q /\ (v <= 100)%Q
      /\ calculate_match_score r job
         = Some
             (let scores :=
                {| experience_score :=
                     inject_Z (calculate_experience_match r
                                 (experience (job_requirements job)));
                   skills_score := v;
                   education_score :=
                     inject_Z (calculate_education_match r
                                 (education (job_requirements job)));
                   industry_score_of :=
                     inject_Z (calculate_industry_match r job) |} in
              let found := generate_match_insights r job scores in
              {| overall_score :=
                   (experience_score scores * (30 # 100)
                    + v * (40 # 100)
                    + education_score scores * (15 # 100)
                    + industry_score_of scores * (15 # 100))%Q;
                 md_category_scores := scores;
                 md_strengths := i_strengths found;
                 md_gaps := i_gaps found;
                 md_recommendations := i_recommendations found |}).
Proof.
  intros r job.
  destruct (skills_match_bounds r (skills (job_requirements job)))
    as (v & E & H0 & H1).
  exists v. repeat split; try assumption.
  unfold calculate_match_score. rewrite E. reflexivity.
Qed.

(** X15. [calculate_match_score] always returns a result; its overall
    score is the weighted sum of the four category scores (30, 40, 15
    and 15 percent), the skills score lies in [0,100], and the overall
    score lies between 36.75 and 97: no resume reaches 100 against any
    job. *)
Theorem calculate_match_score_range :
  forall (r : resume) (job : job_info),
    exists md,
      calculate_match_score r job = Some md
      /\ (overall_score md
          == (30 # 100) * experience_score (md_category_scores md)
             + (40 # 100) * skills_score (md_category_scores md)
             + (15 # 100) * education_score (md_category_scores md)
             + (15 # 100) * industry_score_of (md_category_scores md))%Q
      /\ (0 <= skills_score (md_category_scores md))%Q
      /\ (skills_score (md_category_scores md) <= 100)%Q
      /\ (147 # 4 <= overall_score md)%Q
      /\ (overall_score md <= 97)%Q.
Proof.
  intros r job.
  destruct (match_score_fields r job) as (v & _ & H0 & H1 & E).
  eexists. split; [exact E|]. cbv zeta.
  cbn [overall_score md_category_scores experience_score skills_score
       education_score industry_score_of].
  split; [ring|]. split; [assumption|]. split; [assumption|].
  destruct (experience_match_values r (experience (job_requirements job)))
    as [-> | [-> | ->]];
  destruct (education_match_values r (education (job_requirements job)))
    as [-> | ->];
  destruct (industry_match_values r job) as [-> | [-> | ->]];
  unfold inject_Z; split; lra.
Qed.

(** X16. In a match result the only gap ever reported is the one on
    skills, and only for a skills score under 60 (the experience and
    education scores never fall under 60); experience is named a
    strength exactly when the job asks for 0 years, and the
    recommendation to emphasise experience is given exactly when it asks
    for more than 3. *)
Theorem match_insights_follow_the_job :
  forall (r : resume) (job : job_info) (md : match_details),
    calculate_match_score r job = Some md ->
    (forall g, In g (md_gaps md) ->
               g = "Missing several key technical skills"
               /\ (skills_score (md_category_scores md) < 60)%Q)
    /\ (In "Experience level matches job expectations" (md_strengths md)
        <-> min_years (experience (job_requirements job)) = 0%Z)
    /\ (In highlight_experience_recommendation (md_recommendations md)
        <-> (3 < min_years (experience (job_requirements job)))%Z).
Proof.
  intros r job md H.
  destruct (match_score_fields r job) as (v & _ & H0 & H1 & E).
  rewrite E in H. injection H as <-. cbv zeta.
  cbn [md_gaps md_strengths md_recommendations md_category_scores
       skills_score].
  unfold generate_match_insights.
  cbn [i_gaps i_strengths i_recommendations experience_score skills_score
       education_score industry_score_of].
  set (my := min_years (experience (job_requirements job))).
  assert (calculate_experience_match r (experience (job_requirements job))
          = if (my =? 0)%Z then 90%Z
            else if (my <=? 3)%Z then 75%Z else 60%Z)
    as Ee by reflexivity.
  rewrite Ee. clear Ee.
  split; [|split].
  - intros g. rewrite !in_app_iff, !In_when.
    intros [[Hb ->]|[[Hb _]|[Hb _]]].
    + split; [reflexivity|]. now apply Qlt_bool_iff.
    + exfalso. apply Qlt_bool_iff in Hb.
      destruct (my =? 0)%Z; [|destruct (my <=? 3)%Z];
        vm_compute in Hb; discriminate.
    + exfalso. apply Qlt_bool_iff in Hb.
      destruct (education_match_values r (education (job_requirements job)))
        as [Ev | Ev]; rewrite Ev in Hb; vm_compute in Hb; discriminate.
  - rewrite !in_app_iff, !In_when.
    destruct (Z.eqb_spec my 0) as [Hz|Hz].
    + split; [auto|]. intros _. right. left. split; reflexivity.
    + split; [|contradiction].
      intros [[_ Hx]|[[Hb _]|[_ Hx]]]; try discriminate.
      destruct (my <=? 3)%Z; vm_compute in Hb; discriminate.
  - rewrite in_app_iff, In_when.
    split.
    + intros [Hin|[Hb _]].
      * destruct (missing_required r (skills (job_requirements job)));
          [contradiction|].
        destruct Hin as [Hx|[]]. discriminate.
      * apply Qlt_bool_iff in Hb.
        destruct (Z.eqb_spec my 0); [vm_compute in Hb; discriminate|].
        destruct (Z.leb_spec my 3); [vm_compute in Hb; discriminate|lia].
    + intros Hgt. right. split; [|reflexivity].
      destruct (Z.eqb_spec my 0); [lia|].
      destruct (Z.leb_spec my 3); [lia|]. reflexivity.
Qed.

Lemma match_insights_follow_the_job_witness :
  exists md,
    calculate_match_score
      {| detected_industry := None; resume_keyword_analysis := None |}
      (parse_job_description scenario_job_text) = Some md
    /\ In highlight_experience_recommendation (md_recommendations md).
Proof.
  destruct (calculate_match_score
              {| detected_industry := None; resume_keyword_analysis := None |}
              (parse_job_description scenario_job_text)) as [md|] eqn:E;
    [|vm_compute in E; discriminate].
  exists md. split; [reflexivity|].
  apply (match_insights_follow_the_job _ _ _ E).
  vm_compute. reflexivity.
Defined.

(** X17. A match result holds at most two recommendations, and the one
    to add skills names between one and five skills, each among the
    first five required skills of the job and each occurring (in lower
    case) in no keyword of the resume. *)
Theorem match_recommended_skills_are_missing :
  forall (r : resume) (job : job_info) (md : match_details),
    calculate_match_score r job = Some md ->
    List.length (md_recommendations md) <= 2
    /\ forall rec,
        In rec (md_recommendations md) ->
        mr_type rec = "add_skills" ->
        exists missing,
          mr_skills rec = Some missing
          /\ 1 <= List.length missing <= 5
          /\ forall skill,
              In skill missing ->
              In skill (take 5 (required_skills (skills (job_requirements job))))
              /\ ~ matched (map lower (resume_keywords r)) (lower skill).
Proof.
  intros r job md H.
  destruct (match_score_fields r job) as (v & _ & H0 & H1 & E).
  rewrite E in H. injection H as <-. cbv zeta.
  cbn [md_recommendations]. unfold generate_match_insights.
  cbn [i_recommendations].
  set (missing := missing_required r (skills (job_requirements job))).
  assert (List.length missing <= 5) as Hlen.
  { unfold missing, missing_required.
    etransitivity; [apply filter_length_le|apply firstn_le_length]. }
  assert (forall skill, In skill missing ->
            In skill (take 5 (required_skills (skills (job_requirements job))))
            /\ ~ matched (map lower (resume_keywords r)) (lower skill))
    as Hall.
  { intros skill Hin. unfold missing, missing_required in Hin.
    apply filter_In in Hin. destruct Hin as [Hin Hno]. split; [exact Hin|].
    intros Hm. apply matched_iff in Hm. apply negb_true_iff in Hno.
    congruence. }
  split.
  - rewrite length_app.
    destruct missing; destruct (Qlt_bool _ 70); simpl; lia.
  - intros rec Hin Hty. apply in_app_or in Hin.
    destruct Hin as [Hin|Hin].
    + destruct missing as [|m ms] eqn:Em; [contradiction|].
      destruct Hin as [<-|[]]. exists (m :: ms).
      split; [reflexivity|]. split; [simpl in *; lia|exact Hall].
    + apply In_when in Hin. destruct Hin as [_ ->]. discriminate.
Qed.

Lemma match_recommended_skills_are_missing_witness :
  exists md,
    calculate_match_score
      {| detected_industry := None;
         resume_keyword_analysis :=
           Some {| k_found_keywords := Some ["python"] |} |}
      (parse_job_description scenario_job_text) = Some md
    /\ List.length (md_recommendations md) <= 2.
Proof.
  destruct (calculate_match_score
              {| detected_industry := None;
                 resume_keyword_analysis :=
                   Some {| k_found_keywords := Some ["python"] |} |}
              (parse_job_description scenario_job_text)) as [md|] eqn:E;
    [|vm_compute in E; discriminate].
  exists md. split; [reflexivity|].
  apply (match_recommended_skills_are_missing _ _ _ E).
Defined.

(** ** detect_job_industry *)

Lemma max_by_score_In :
  forall rest best,
    In (max_by_score best rest) (Dict.keys (best :: rest)).
Proof.
  intros rest best.
  destruct (max_by_score_first_max rest [] best []) as (l1 & s & l2 & E & _).
  - intros x [].
  - intros x [].
  - simpl in E. rewrite E. unfold Dict.keys. rewrite map_app.
    apply in_or_app. right. left. reflexivity.
Qed.

Lemma hits_absent :
  forall text kws n,
    (forall kw, In kw kws -> contains kw text = false) ->
    fold_left (fun total keyword => total + count text keyword) kws n = n.
Proof.
  intros text. induction kws as [|kw kws IH]; intros n H; simpl;
    [reflexivity|].
  rewrite count_absent by (apply H; left; reflexivity).
  rewrite Nat.add_0_r.
  apply IH. intros k Hk. apply H. right. assumption.
Qed.

(** X18. [detect_job_industry] always answers one of its six industries,
    never [general]; a posting in which none of their keywords occurs is
    classified as technology. *)
Theorem detect_job_industry_declared :
  forall job_text : string,
    In (detect_job_industry job_text)
       ["technology"; "finance"; "healthcare"; "marketing"; "sales";
        "consulting"]
    /\ detect_job_industry job_text <> "general"
    /\ ((forall entry kw,
            In entry job_industry_keywords -> In kw (snd entry) ->
            contains kw job_text = false) ->
        detect_job_industry job_text = "technology").
Proof.
  intros job_text.
  assert (In (detect_job_industry job_text)
             ["technology"; "finance"; "healthcare"; "marketing"; "sales";
              "consulting"]) as Hin.
  { unfold detect_job_industry, job_industry_keywords. cbn [map fst snd].
    match goal with
    | |- In (max_by_score ?b ?r) _ => exact (max_by_score_In r b)
    end. }
  split; [exact Hin|]. split.
  - intros Hg. rewrite Hg in Hin. simpl in Hin. intuition discriminate.
  - intros H.
    assert (forall kw, In kw (flat_map snd job_industry_keywords) ->
                       contains kw job_text = false) as Hflat.
    { intros kw Hkw. apply in_flat_map in Hkw.
      destruct Hkw as (entry & He & Hk). eapply H; eassumption. }
    clear H Hin. unfold detect_job_industry, job_industry_keywords in *.
    cbn [map fst snd flat_map app] in *.
    rewrite !hits_absent; [reflexivity| | | | | |];
      intros kw Hkw; apply Hflat; simpl in Hkw |- *; tauto.
Qed.

(** ** extract_benefits *)

Lemma comma_fields_entries :
  forall m b,
    In b (comma_fields m) ->
    b <> EmptyString /\ strip b = b /\ any_char (Ascii.eqb comma) b = false.
Proof.
  intros m b H. unfold comma_fields in H. apply in_map_iff in H.
  destruct H as (raw & <- & Hraw). apply filter_In in Hraw.
  destruct Hraw as [Hraw Hne]. split; [|split].
  - intros E. rewrite E in Hne. discriminate.
  - apply strip_idem.
  - apply strip_keeps. eapply split_on_no_sep. exact Hraw.
Qed.

(** X19. [extract_benefits] returns at most ten benefits, none of them
    empty, none with white space at either end and none with a comma. *)
Theorem extract_benefits_entries :
  forall job_text : string,
    List.length (extract_benefits job_text) <= 10
    /\ forall b, In b (extract_benefits job_text) ->
                 b <> EmptyString /\ strip b = b
                 /\ any_char (Ascii.eqb comma) b = false.
Proof.
  intros job_text. unfold extract_benefits. split.
  - apply firstn_le_length.
  - intros b H. apply In_take in H. apply in_app_or in H.
    destruct H as [H|H].
    + apply in_flat_map in H. destruct H as (p & _ & H).
      apply in_flat_map in H. destruct H as (m & _ & H).
      eapply comma_fields_entries. exact H.
    + apply in_flat_map in H. destruct H as (m & _ & H).
      eapply comma_fields_entries. exact H.
Qed.

(** ** extract_keywords *)

Lemma total_count_from :
  forall (d : Dict.t nat) a,
    fold_left (fun total entry => total + snd entry) d a = a + total_count d.
Proof.
  unfold total_count. induction d as [|e d IH]; intros a; simpl; [lia|].
  rewrite IH, (IH (snd e)). lia.
Qed.

Lemma total_count_cons :
  forall (e : string * nat) (d : Dict.t nat),
    total_count (e :: d) = snd e + total_count d.
Proof.
  intros e d. unfold total_count at 1. simpl. apply total_count_from.
Qed.

Lemma total_count_set :
  forall (d : Dict.t nat) k,
    total_count
      (Dict.set k (S (match Dict.get k d with Some n => n | None => 0 end)) d)
    = S (total_count d).
Proof.
  induction d as [|[k' v'] d IH]; intros k; simpl.
  - reflexivity.
  - destruct (String.eqb k k').
    + rewrite !total_count_cons. simpl. lia.
    + rewrite !total_count_cons, IH. simpl. lia.
Qed.

(** The counts of a counter add up to the number of words counted. *)
Lemma counter_total : forall l, total_count (counter l) = List.length l.
Proof.
  induction l as [|a l IH] using rev_ind; [reflexivity|].
  rewrite counter_snoc, total_count_set, IH, length_app. simpl. lia.
Qed.

Lemma counter_length_le :
  forall l, List.length (counter l) <= List.length l.
Proof.
  intros l. rewrite <- (counter_total l).
  assert (forall e, In e (counter l) -> 1 <= snd e) as H.
  { intros [w n] Hin. apply counter_entry in Hin. simpl. lia. }
  revert H. generalize (counter l). intros d.
  induction d as [|e d IH]; intros H; [simpl; lia|].
  rewrite total_count_cons. simpl.
  pose proof (H e (or_introl eq_refl)) as He.
  assert (List.length d <= total_count d) as Hd.
  { apply IH. intros e' He'. apply H. right. assumption. }
  lia.
Qed.

Lemma insert_by_count_In :
  forall x l e, In e (insert_by_count x l) <-> e = x \/ In e l.
Proof.
  intros x. induction l as [|y l IH]; intros e; simpl.
  - intuition.
  - destruct (snd x <? snd y)%nat; simpl; [rewrite IH|]; intuition.
Qed.

Lemma insert_by_count_sorted :
  forall x l,
    by_decreasing_count l -> by_decreasing_count (insert_by_count x l).
Proof.
  unfold by_decreasing_count. intros x.
  induction l as [|y l IH]; intros H; simpl.
  - repeat constructor.
  - inversion H as [|? ? Hl Hy]; subst.
    destruct (Nat.ltb_spec (snd x) (snd y)).
    + constructor; [auto|]. apply Forall_forall. intros e He.
      apply insert_by_count_In in He. destruct He as [->|He]; [lia|].
      rewrite Forall_forall in Hy. auto.
    + constructor; [assumption|]. constructor; [assumption|].
      rewrite Forall_forall in Hy |- *. intros e He.
      specialize (Hy _ He). lia.
Qed.

Lemma sorted_take :
  forall n (l : Dict.t nat),
    by_decreasing_count l -> by_decreasing_count (take n l).
Proof.
  unfold by_decreasing_count, take.
  induction n as [|n IH]; intros l H; simpl.
  - constructor.
  - destruct l as [|y l]; [constructor|].
    inversion H as [|? ? Hl Hy]; subst. constructor; [auto|].
    rewrite Forall_forall in Hy |- *. intros e He. apply Hy.
    eapply In_take. exact He.
Qed.

(** [most_common n] gives at most [n] entries of the counter, by
    non-increasing count. *)
Lemma most_common_facts :
  forall n d,
    List.length (most_common n d) <= n
    /\ by_decreasing_count (most_common n d)
    /\ (forall e, In e (most_common n d) -> In e d).
Proof.
  intros n d. unfold most_common. split; [apply firstn_le_length|]. split.
  - apply sorted_take. induction d as [|x d IH]; simpl; [constructor|].
    now apply insert_by_count_sorted.
  - intros e He. apply In_take in He.
    induction d as [|x d IH]; simpl in *; [assumption|].
    apply insert_by_count_In in He. destruct He; auto.
Qed.

(** X20. Whatever the tokeniser and the stop words, the keyword summary
    counts as total words the tokens kept (alphabetic, no stop word),
    has no more unique words than words, and lists at most 20 top words
    and 10 top phrases by non-increasing count, each top word with its
    true number of occurrences among the kept tokens. *)
Theorem extract_keywords_summary :
  forall (word_tokenize : string -> list string) (stop_words : list string)
         (job_text : string),
    let s := extract_keywords word_tokenize stop_words job_text in
    let tokens := kept_tokens word_tokenize stop_words job_text in
    total_words s = List.length tokens
    /\ total_unique_words s <= total_words s
    /\ List.length (top_words s) <= 20
    /\ by_decreasing_count (top_words s)
    /\ (forall w n, In (w, n) (top_words s) ->
                    n = count_occ string_dec tokens w /\ 0 < n)
    /\ List.length (top_phrases s) <= 10
    /\ by_decreasing_count (top_phrases s).
Proof.
  intros word_tokenize stop_words job_text s tokens. subst s.
  unfold extract_keywords.
  cbn [total_words total_unique_words top_words top_phrases].
  fold tokens.
  destruct (most_common_facts 20 (counter tokens)) as (L1 & S1 & I1).
  destruct (most_common_facts 10 (counter (kept_phrases stop_words job_text)))
    as (L2 & S2 & _).
  pose proof (counter_total tokens) as T. unfold total_count in T.
  rewrite T.
  split; [reflexivity|]. split; [apply counter_length_le|].
  split; [assumption|]. split; [assumption|].
  split; [|split; assumption].
  intros w n H. apply I1 in H. now apply counter_entry in H.
Qed.

(** * The pipeline and the general fallback *)

(** X21. On a database that lists at least one industry, every analysis
    [analyze_resume_content] returns is for an industry of the database,
    and its keyword analysis counts that industry's keywords: the
    fallback of [analyze_keywords] for an unknown industry is never what
    the pipeline reports. *)
Theorem pipeline_keyword_analysis_is_listed :
  forall (db : keyword_db)
         (sent_tokenize : string -> option (list string))
         (flesch_reading_ease : string -> option Q)
         (text : string) (a : analysis),
    db <> [] ->
    analyze_resume_content db sent_tokenize flesch_reading_ease text
      = Some a ->
    In (a_detected_industry a) (Dict.keys db)
    /\ exists cats,
        Dict.get (a_detected_industry a) db = Some cats
        /\ total_possible (a_keyword_analysis a)
           = Some (List.length (all_keywords cats)).
Proof.
  intros db sent flesch text a Hne. unfold analyze_resume_content.
  destruct (sent text) as [sentences|]; [|discriminate].
  destruct (flesch text) as [readability|]; [|discriminate].
  destruct (analyze_keywords db (lower text) (detect_industry db (lower text)))
    as [ka|] eqn:Eka; [|discriminate].
  intros [= <-]. cbn [a_detected_industry a_keyword_analysis].
  assert (In (detect_industry db (lower text)) (Dict.keys db)) as Hin.
  { destruct (detect_industry_argmax db (lower text) Hne)
      as (l1 & s & l2 & E & _).
    assert (In (detect_industry db (lower text))
               (Dict.keys (industry_scores db (lower text)))) as H.
    { rewrite E. unfold Dict.keys. rewrite map_app. apply in_or_app.
      right. left. reflexivity. }
    unfold Dict.keys, industry_scores in H. rewrite map_map in H. exact H. }
  split; [exact Hin|].
  apply In_keys_get in Hin. destruct Hin as [cats Hget].
  exists cats. split; [exact Hget|].
  destruct (analyze_keywords_listed db (lower text) _ cats Hget)
    as (ka' & E & Tp & _).
  rewrite E in Eka. injection Eka as <-. exact Tp.
Qed.

Lemma pipeline_keyword_analysis_is_listed_witness :
  exists a,
    analyze_resume_content industry_keywords (fun t => Some [t])
                           (fun _ => Some 50%Q) scenario_resume_text
      = Some a
    /\ In (a_detected_industry a) (Dict.keys industry_keywords).
Proof.
  destruct (analyze_resume_content industry_keywords (fun t => Some [t])
              (fun _ => Some 50%Q) scenario_resume_text) as [a|] eqn:E;
    [|vm_compute in E; discriminate].
  exists a. split; [reflexivity|].
  apply (pipeline_keyword_analysis_is_listed
           industry_keywords (fun t => Some [t]) (fun _ => Some 50%Q)
           scenario_resume_text a); [discriminate|exact E].
Defined.
